(** * ScatterPlotApp: the column classifier and the selection logic of app.py

    The script app.py reads a delimited file into a pandas frame, sorts the
    column names of the frame into discrete and continuous ones, collects the
    choices the user makes in the Streamlit sidebar and hands them to Plotly.
    This development embeds the script from line 25 on (the frame [df] is
    what [pd.read_csv] produced on lines 13 to 23) and verifies the
    statements of the specification about it. *)

From stdpp Require Import base option list strings gmap.
From Stdlib Require Import ZArith QArith Qcanon Lia.

Local Open Scope string_scope.
Local Open Scope nat_scope.

(** ** pandas values *)

(** A finite number as Python and numpy hold it: an integer, or a float.  A
    finite float denotes a rational, and ordering and equality of finite floats
    are those of the rationals they denote. *)
Inductive number : Type :=
  | Int (z : Z)
  | Float (q : Qc).

(** A cell of a frame: text, a boolean, a number, or the missing value. *)
Inductive scalar : Type :=
  | Str (s : string)
  | Bool (b : bool)
  | Num (n : number)
  | NaN.

(** The numpy dtypes a column read by pandas can carry. *)
Inductive Dtype : Type :=
  | object_ | bool_ | int64 | float64 | int32 | float32 | uint64 | datetime64.

Global Instance number_eq_dec : EqDecision number.
Proof. solve_decision. Defined.
Global Instance scalar_eq_dec : EqDecision scalar.
Proof. solve_decision. Defined.
Global Instance Dtype_eq_dec : EqDecision Dtype.
Proof. solve_decision. Defined.

Record Series : Type := mkSeries { dtype : Dtype; values : list scalar }.

(** A frame is the ordered sequence of its named columns. *)
Definition DataFrame : Type := list (string * Series).

Module Number.

Definition value (n : number) : Qc :=
  match n with
  | Int z => Qc_of_Z z
  | Float q => q
  end.

Definition leb (a b : number) : bool := Qle_bool (value a) (value b).
Definition ltb (a b : number) : bool := negb (leb b a).

Definition le (a b : number) : Prop := (value a <= value b)%Qc.
Definition lt (a b : number) : Prop := (value a < value b)%Qc.

End Number.

(** ** The pandas operations the script uses *)

Module pd.

(** [df[key]]: the column of that name, if there is one. *)
Fixpoint getitem (df : DataFrame) (key : string) : option Series :=
  match df with
  | [] => None
  | (name, s) :: rest => if decide (name = key) then Some s else getitem rest key
  end.

(** [len(df.index)]: the number of rows. *)
Definition len (df : DataFrame) : nat :=
  match df with
  | [] => 0
  | (_, s) :: _ => length (values s)
  end.

(** [df[key] = s]: an existing column is replaced where it stands, a new
    one is appended. *)
Fixpoint setitem (df : DataFrame) (key : string) (s : Series) : DataFrame :=
  match df with
  | [] => [(key, s)]
  | (name, old) :: rest =>
      if decide (name = key) then (key, s) :: rest
      else (name, old) :: setitem rest key s
  end.

(** [df[key] = v] for a Python int [v]: the scalar is broadcast over the
    rows into an int64 column. *)
Definition setitem_int (df : DataFrame) (key : string) (v : Z) : DataFrame :=
  setitem df key (mkSeries int64 (replicate (len df) (Num (Int v)))).

(** [s.nunique()]: the number of distinct values, missing ones left out. *)
Definition nunique (s : Series) : nat :=
  length (remove_dups (filter (λ v, v ≠ NaN) (values s))).

(** The numeric cells of a column, missing ones skipped. *)
Definition numbers (s : Series) : list number :=
  omap (λ v, match v with Num n => Some n | _ => None end) (values s).

Fixpoint least (l : list number) : option number :=
  match l with
  | [] => None
  | n :: rest =>
      match least rest with
      | None => Some n
      | Some m => Some (if Number.leb n m then n else m)
      end
  end.

Fixpoint greatest (l : list number) : option number :=
  match l with
  | [] => None
  | n :: rest =>
      match greatest rest with
      | None => Some n
      | Some m => Some (if Number.leb m n then n else m)
      end
  end.

(** [s.min()] and [s.max()] of a numeric column; [None] stands for the nan
    pandas returns when no cell is left after skipping the missing ones. *)
Definition min (s : Series) : option number := least (numbers s).
Definition max (s : Series) : option number := greatest (numbers s).

End pd.

(** ** Column classification (app.py, lines 25 to 40) *)

Module Classifier.

Definition MAX_DISCRETE_ELEMENTS : nat := 10.
Definition FACET_LIMIT : nat := 3.

(** [list(df.columns[1:])] *)
Definition columns (df : DataFrame) : list string := tail (df.*1).

Definition dtype_of (df : DataFrame) (col : string) : option Dtype :=
  dtype <$> pd.getitem df col.

Definition nunique_of (df : DataFrame) (col : string) : nat :=
  from_option pd.nunique 0 (pd.getitem df col).

Definition is_discrete (d : Dtype) : bool :=
  bool_decide (d = object_) || bool_decide (d = bool_).

Definition is_continuous (d : Dtype) : bool :=
  bool_decide (d ∈ [int64; float64; int32; float32]).

Definition discrete_columns (df : DataFrame) : list string :=
  filter (λ col, from_option is_discrete false (dtype_of df col)) (columns df).

(** The two limits are the module constants of the script; they are
    arguments here so that statements can range over them. *)
Definition valid_discrete_columns (max_discrete : nat) (df : DataFrame) : list string :=
  filter (λ col, nunique_of df col ≤ max_discrete) (discrete_columns df).

Definition valid_facet_columns (max_discrete facet_limit : nat) (df : DataFrame)
  : list string :=
  filter (λ col, nunique_of df col ≤ facet_limit) (valid_discrete_columns max_discrete df).

Definition continuous_columns (df : DataFrame) : list string :=
  filter (λ col, from_option is_continuous false (dtype_of df col)) (columns df).

End Classifier.

(** ** Plotly figures *)

(** A Python value that is a column name or [None]. *)
Abbreviation name := (option string).

(** A pair of range bounds as the script passes it on. *)
Abbreviation range := (option number * option number)%type.

Module px.

(** The keyword arguments of the call [px.scatter_3d(df, ...)]. *)
Record scatter_3d_args : Type := mk_scatter_3d {
  data_frame3 : DataFrame;
  x3 : name; range_x3 : range;
  y3 : name; range_y3 : range;
  z3 : name; range_z3 : range;
  color3 : name; size3 : name; size_max3 : Z; symbol3 : name;
  log_x3 : bool; log_y3 : bool; log_z3 : bool;
  labels3 : gmap (option string) (option string);
  hover_data3 : list string
}.

(** The keyword arguments of the call [px.scatter(df, ...)]. *)
Record scatter_args : Type := mk_scatter {
  data_frame : DataFrame;
  x : name; range_x : range;
  y : name; range_y : range;
  color : name; symbol : name; size : name; size_max : Z;
  facet_col : name; facet_row : name;
  log_x : bool; log_y : bool;
  labels : gmap (option string) (option string);
  hover_data : list string
}.

Inductive express : Type :=
  | scatter_3d (a : scatter_3d_args)
  | scatter (a : scatter_args).

(** What either call was given. *)
Definition frame_of (c : express) : DataFrame :=
  match c with scatter_3d a => data_frame3 a | scatter a => data_frame a end.
Definition x_of (c : express) : name :=
  match c with scatter_3d a => x3 a | scatter a => x a end.
Definition y_of (c : express) : name :=
  match c with scatter_3d a => y3 a | scatter a => y a end.
Definition z_of (c : express) : name :=
  match c with scatter_3d a => z3 a | scatter _ => None end.
Definition range_x_of (c : express) : range :=
  match c with scatter_3d a => range_x3 a | scatter a => range_x a end.
Definition range_y_of (c : express) : range :=
  match c with scatter_3d a => range_y3 a | scatter a => range_y a end.
Definition range_z_of (c : express) : range :=
  match c with scatter_3d a => range_z3 a | scatter _ => (None, None) end.
Definition size_of (c : express) : name :=
  match c with scatter_3d a => size3 a | scatter a => size a end.
Definition hover_data_of (c : express) : list string :=
  match c with scatter_3d a => hover_data3 a | scatter a => hover_data a end.
Definition is_3d (c : express) : bool :=
  match c with scatter_3d _ => true | scatter _ => false end.
Definition color_of (c : express) : name :=
  match c with scatter_3d a => color3 a | scatter a => color a end.
Definition symbol_of (c : express) : name :=
  match c with scatter_3d a => symbol3 a | scatter a => symbol a end.
Definition facet_col_of (c : express) : name :=
  match c with scatter_3d _ => None | scatter a => facet_col a end.
Definition facet_row_of (c : express) : name :=
  match c with scatter_3d _ => None | scatter a => facet_row a end.
Definition labels_of (c : express) : gmap (option string) (option string) :=
  match c with scatter_3d a => labels3 a | scatter a => labels a end.

End px.

Record Marker : Type := mkMarker {
  line_width : nat;
  line_color : option string;
  marker_color : option string
}.

Record Figure : Type := mkFigure {
  call : px.express;
  layout_title : option string;
  autosize : bool;
  width : option nat;
  height : option nat;
  marker : option Marker
}.

Definition new_figure (c : px.express) : Figure :=
  mkFigure c None true None None None.

(** [fig.update_layout(title=title)] *)
Definition update_layout_title (title : option string) (fig : Figure) : Figure :=
  mkFigure (call fig) title (autosize fig) (width fig) (height fig) (marker fig).

(** [fig.update_layout(autosize=..., width=..., height=...)] *)
Definition update_layout_size (a : bool) (w h : nat) (fig : Figure) : Figure :=
  mkFigure (call fig) (layout_title fig) a (Some w) (Some h) (marker fig).

(** [fig.update_traces(marker=...)] *)
Definition update_traces (m : Marker) (fig : Figure) : Figure :=
  mkFigure (call fig) (layout_title fig) (autosize fig) (width fig) (height fig) (Some m).

(** ** One run of the script *)

(** What a run puts on the page. *)
Inductive Element : Type :=
  | warning_box (body : string)
  | plotly_chart_box (fig : Figure) (use_container_width : bool).

(** The state a run works on: the frame, which the script mutates, and the
    page it writes to. *)
Record Session : Type := mkSession { frame : DataFrame; page : list Element }.

Inductive Exn : Type :=
  | KeyError (key : option string)
  | StreamlitAPIException.

(** A run ends normally, is halted by [st.stop()], or raises. *)
Inductive Result (A : Type) : Type :=
  | Done (a : A)
  | Stopped
  | Raised (e : Exn).
Arguments Done {A} a.
Arguments Stopped {A}.
Arguments Raised {A} e.

Definition App (A : Type) : Type := Session → Result A * Session.

Global Instance App_ret : MRet App := λ A a s, (Done a, s).
Global Instance App_bind : MBind App := λ A B k m s,
  match m s with
  | (Done a, s') => k a s'
  | (Stopped, s') => (Stopped, s')
  | (Raised e, s') => (Raised e, s')
  end.

Definition raise {A} (e : Exn) : App A := λ s, (Raised e, s).
Definition get_df : App DataFrame := λ s, (Done (frame s), s).
Definition put_df (df : DataFrame) : App unit := λ s, (Done tt, mkSession df (page s)).
Definition when (b : bool) (body : App unit) : App unit :=
  if b then body else mret tt.

(** [df[key]] inside a run: a key that names no column raises. *)
Definition getitem (key : name) : App Series :=
  df ← get_df;
  match key ≫= pd.getitem df with
  | Some s => mret s
  | None => raise (KeyError key)
  end.

(** ** The Streamlit widgets the script uses

    A widget call takes what the user did to the widget in this run (an index
    into the options, a typed entry, or nothing) next to the arguments the
    script passes. *)

Module st.

(** [st.warning(body)] *)
Definition warning (body : string) : App unit :=
  λ s, (Done tt, mkSession (frame s) (page s ++ [warning_box body])).

(** [st.stop()] *)
Definition stop {A} : App A := λ s, (Stopped, s).

(** [st.plotly_chart(fig, use_container_width=...)] *)
Definition plotly_chart (fig : Figure) (use_container_width : bool) : App unit :=
  λ s, (Done tt, mkSession (frame s) (page s ++ [plotly_chart_box fig use_container_width])).

(** [st.selectbox(label, options)]: the option the user picked; the first
    one while nothing (or nothing that is still on offer) is picked. *)
Definition selectbox `{Inhabited A} (options : list A) (index : nat) : A :=
  match options !! index with
  | Some a => a
  | None => hd inhabitant options
  end.

(** [st.radio(label, options)] *)
Definition radio `{Inhabited A} (options : list A) (index : nat) : A :=
  selectbox options index.

(** [st.text_input(label, value)] *)
Definition text_input (entry : option string) (value : name) : option string :=
  match entry with
  | Some typed => Some typed
  | None => value
  end.

(** [st.checkbox(label, value=False)] *)
Definition checkbox (ticked : bool) : bool := ticked.

(** [st.number_input(label, value=v)] for a Python int [v], no bounds. *)
Definition number_input_int (entry : option Z) (value : Z) : Z :=
  default value entry.

Definition below (v bound : option number) : bool :=
  match v, bound with
  | Some a, Some b => Number.ltb a b
  | _, _ => false
  end.

Definition above (v bound : option number) : bool := below bound v.

(** What the widget makes of a typed number: an entry outside
    [min_value, max_value] is brought back to the bound it passed. *)
Definition clamp (e : number) (min_value max_value : option number) : number :=
  if below (Some e) min_value then default e min_value
  else if above (Some e) max_value then default e max_value
  else e.

(** [st.number_input(label, value=, min_value=, max_value=)]: the call
    raises when [value] itself lies outside the bounds; [None] is nan, which
    compares false with everything and so bounds nothing. *)
Definition number_input (entry : option number)
    (value min_value max_value : option number) : App (option number) :=
  if below value min_value || above value max_value
  then raise StreamlitAPIException
  else mret (match entry with
             | Some e => Some (clamp e min_value max_value)
             | None => value
             end).

(** [st.multiselect(label, options, default=)]: the call raises when a
    default is not among the options; the user picks among the options. *)
Definition multiselect (entry : option (list string))
    (options default : list string) : App (list string) :=
  if decide (Forall (λ d, d ∈ options) default)
  then mret (match entry with
             | Some picks => filter (λ p, p ∈ options) picks
             | None => default
             end)
  else raise StreamlitAPIException.

End st.

(** What the user did to each widget of the sidebar. *)
Record Widgets : Type := mkWidgets {
  dimensions_index : nat;
  x_axis_index : nat;
  y_axis_index : nat;
  z_axis_index : nat;
  color_axis_index : nat;
  default_color_index : nat;
  size_axis_index : nat;
  max_size_entry : option Z;
  symbol_axis_index : nat;
  facet_col_axis_index : nat;
  facet_row_axis_index : nat;
  title_entry : option string;
  x_label_entry : option string;
  x_log_scale_tick : bool;
  x_range_min_entry : option number;
  x_range_max_entry : option number;
  y_label_entry : option string;
  y_log_scale_tick : bool;
  y_range_min_entry : option number;
  y_range_max_entry : option number;
  z_label_entry : option string;
  z_log_scale_tick : bool;
  z_range_min_entry : option number;
  z_range_max_entry : option number;
  hover_data_entry : option (list string)
}.

(** [[None] + cols] *)
Definition none_or (cols : list string) : list name := None :: (Some <$> cols).

(** [x is None] *)
Definition is_None (x : name) : bool := bool_decide (x = None).

(** A choice that is [None] or one of [cols]. *)
Definition among (cols : list string) (n : name) : Prop :=
  ∀ c, n = Some c → c ∈ cols.

(** ** The sidebar (app.py, lines 25 to 124) *)

(** The variables the sidebar block leaves behind for the plotting code. *)
Record Selections : Type := mkSelections {
  dimensions : nat;
  x_axis : name;
  y_axis : name;
  z_axis : name;
  color_axis : name;
  default_color : string;
  size_axis : name;
  max_size : Z;
  symbol_axis : name;
  facet_col_axis : name;
  facet_row_axis : name;
  title : option string;
  x_label : option string;
  x_log_scale : bool;
  x_range_min : option number;
  x_range_max : option number;
  y_label : option string;
  y_log_scale : bool;
  y_range_min : option number;
  y_range_max : option number;
  z_label : option string;
  z_log_scale : bool;
  z_range_min : option number;
  z_range_max : option number;
  hover_data : list string
}.

(** Lines 81 to 85 (and 90 to 94, 100 to 104): the observed minimum and
    maximum of the axis column, and the two range inputs bounded by them. *)
Definition axis_range (axis : name) (entry_min entry_max : option number) : App range :=
  col ← getitem axis;
  let lo := pd.min col in
  col ← getitem axis;
  let hi := pd.max col in
  range_min ← st.number_input entry_min lo lo hi;
  range_max ← st.number_input entry_max hi lo hi;
  mret (range_min, range_max).

(** Lines 107 to 123: each [if c is not None: default_columns.append(c)]. *)
Definition default_columns
    (color_axis size_axis x_axis y_axis z_axis symbol_axis facet_col_axis facet_row_axis : name)
  : list string :=
  option_list color_axis
  ++ (if negb (is_None size_axis) && negb (bool_decide (size_axis = Some "dummy_size_axis"))
      then option_list size_axis else [])
  ++ option_list x_axis
  ++ option_list y_axis
  ++ option_list z_axis
  ++ option_list symbol_axis
  ++ option_list facet_col_axis
  ++ option_list facet_row_axis.

Definition sidebar (file_name : string) (ui : Widgets) : App Selections :=
  df ← get_df;
  let columns := Classifier.columns df in
  when (bool_decide (length columns = 0))
    (st.warning "No Columns found in the file";;
     st.warning "Please upload a valid file, or choose a different separator";;
     st.stop);;
  let valid_discrete_columns :=
    Classifier.valid_discrete_columns Classifier.MAX_DISCRETE_ELEMENTS df in
  let valid_facet_columns :=
    Classifier.valid_facet_columns Classifier.MAX_DISCRETE_ELEMENTS Classifier.FACET_LIMIT df in
  let continuous_columns := Classifier.continuous_columns df in
  let dimensions := st.radio [2; 3] (dimensions_index ui) in
  let x_axis := st.selectbox (none_or continuous_columns) (x_axis_index ui) in
  let y_axis := st.selectbox (none_or continuous_columns) (y_axis_index ui) in
  let z_axis :=
    if dimensions =? 3
    then st.selectbox (none_or continuous_columns) (z_axis_index ui)
    else None in
  when (is_None x_axis || is_None y_axis || ((dimensions =? 3) && is_None z_axis))
    (st.warning "Please select x, y, and z axis";;
     st.stop);;
  let color_axis := st.selectbox (none_or valid_discrete_columns) (color_axis_index ui) in
  let default_color := st.selectbox ["blue"; "red"; "green"] (default_color_index ui) in
  let size_axis := st.selectbox (none_or continuous_columns) (size_axis_index ui) in
  let max_size := st.number_input_int (max_size_entry ui) 5 in
  size_axis ←
    (if is_None size_axis
     then put_df (pd.setitem_int df "dummy_size_axis" max_size);;
          mret (Some "dummy_size_axis")
     else mret size_axis);
  let symbol_axis := st.selectbox (none_or valid_discrete_columns) (symbol_axis_index ui) in
  let facet_col_axis :=
    if dimensions =? 2
    then st.selectbox (none_or valid_facet_columns) (facet_col_axis_index ui)
    else None in
  let facet_row_axis :=
    if dimensions =? 2
    then st.selectbox (none_or valid_facet_columns) (facet_row_axis_index ui)
    else None in
  let title := st.text_input (title_entry ui) (Some ("Scatter Plot for " ++ file_name)) in
  let x_label := st.text_input (x_label_entry ui) x_axis in
  let x_log_scale := st.checkbox (x_log_scale_tick ui) in
  x_range ← axis_range x_axis (x_range_min_entry ui) (x_range_max_entry ui);
  let y_label := st.text_input (y_label_entry ui) y_axis in
  let y_log_scale := st.checkbox (y_log_scale_tick ui) in
  y_range ← axis_range y_axis (y_range_min_entry ui) (y_range_max_entry ui);
  (** the z variables are bound in three dimensions only, and read there only *)
  z_range ←
    (if dimensions =? 3
     then axis_range z_axis (z_range_min_entry ui) (z_range_max_entry ui)
     else mret (None, None));
  let z_label := if dimensions =? 3 then st.text_input (z_label_entry ui) z_axis else None in
  let z_log_scale := (dimensions =? 3) && st.checkbox (z_log_scale_tick ui) in
  hover_data ←
    st.multiselect (hover_data_entry ui) columns
      (default_columns color_axis size_axis x_axis y_axis z_axis
         symbol_axis facet_col_axis facet_row_axis);
  mret (mkSelections dimensions x_axis y_axis z_axis color_axis default_color
          size_axis max_size symbol_axis facet_col_axis facet_row_axis title
          x_label x_log_scale x_range.1 x_range.2
          y_label y_log_scale y_range.1 y_range.2
          z_label z_log_scale z_range.1 z_range.2 hover_data).

(** ** The plot (app.py, lines 126 to 185) *)

Definition scatter_plot (v : Selections) : App Figure :=
  df ← get_df;
  if dimensions v =? 3 then
    when (is_None (x_axis v) || is_None (y_axis v) || is_None (z_axis v))
      (st.warning "Please select x, y, and z axis";;
       st.stop);;
    let fig := new_figure (px.scatter_3d
      (px.mk_scatter_3d df
         (x_axis v) (x_range_min v, x_range_max v)
         (y_axis v) (y_range_min v, y_range_max v)
         (z_axis v) (z_range_min v, z_range_max v)
         (color_axis v) (size_axis v) (max_size v) (symbol_axis v)
         (x_log_scale v) (y_log_scale v) (z_log_scale v)
         (<[z_axis v := z_label v]> (<[y_axis v := y_label v]> (<[x_axis v := x_label v]> ∅)))
         (hover_data v))) in
    mret (update_layout_title (title v) fig)
  else
    when (is_None (x_axis v) || is_None (y_axis v))
      (st.warning "Please select x and y axis";;
       st.stop);;
    let fig := new_figure (px.scatter
      (px.mk_scatter df
         (x_axis v) (x_range_min v, x_range_max v)
         (y_axis v) (y_range_min v, y_range_max v)
         (color_axis v) (symbol_axis v) (size_axis v) (max_size v)
         (facet_col_axis v) (facet_row_axis v)
         (x_log_scale v) (y_log_scale v)
         (<[title v := title v]> (<[y_axis v := y_label v]> (<[x_axis v := x_label v]> ∅)))
         (hover_data v))) in
    mret (update_layout_title (title v) fig).

Definition app (file_name : string) (ui : Widgets) : App unit :=
  v ← sidebar file_name ui;
  fig ← scatter_plot v;
  let trace_color := if is_None (color_axis v) then Some (default_color v) else None in
  let fig := update_traces (mkMarker 1 trace_color trace_color)
               (update_layout_size false 700 700 fig) in
  st.plotly_chart fig true.

(** A run of the script on the frame read from the chosen file. *)
Definition run (file_name : string) (df : DataFrame) (ui : Widgets) : Result unit * Session :=
  app file_name ui (mkSession df []).

(** ** Sample frames and sidebar states *)

Module Sample.

Definition ints (l : list Z) : Series := mkSeries int64 ((λ z, Num (Int z)) <$> l).
Definition texts (l : list string) : Series := mkSeries object_ (Str <$> l).

(** The file of the specification's end-to-end example, with a boolean and a
    float column added: [id, category, value1, value2, flag, ratio]. *)
Definition sales : DataFrame :=
  [("id", ints [1; 2; 3; 4]%Z);
   ("category", texts ["a"; "b"; "c"; "a"]);
   ("value1", ints [10; 5; 7; 12]%Z);
   ("value2", ints [3; 9; 4; 4]%Z);
   ("flag", mkSeries bool_ [Bool true; Bool false; Bool true; Bool true]);
   ("ratio", mkSeries float64
      [Num (Float (Q2Qc (1 # 2))); NaN; Num (Float (Q2Qc (3 # 2))); Num (Float (Q2Qc (1 # 4)))])].

(** Eleven rows: a text column with ten distinct values, one with eleven, and
    an integer column with ten. *)
Definition wide : DataFrame :=
  [("id", ints [0; 1; 2; 3; 4; 5; 6; 7; 8; 9; 10]%Z);
   ("ten", texts ["a"; "b"; "c"; "d"; "e"; "f"; "g"; "h"; "i"; "j"; "a"]);
   ("eleven", texts ["a"; "b"; "c"; "d"; "e"; "f"; "g"; "h"; "i"; "j"; "k"]);
   ("count", ints [1; 2; 3; 4; 5; 6; 7; 8; 9; 10; 10]%Z)].

(** A column with the observed range [10, 1000]. *)
Definition revenue : DataFrame :=
  [("id", ints [1; 2; 3]%Z);
   ("Revenue", ints [10; 1000; 500]%Z);
   ("Cost", ints [7; 90; 40]%Z)].

(** A file that brings a column called [dummy_size_axis] of its own. *)
Definition colliding : DataFrame :=
  [("id", ints [1; 2; 3]%Z);
   ("dummy_size_axis", ints [40; 50; 60]%Z);
   ("a", ints [1; 2; 3]%Z);
   ("b", ints [4; 5; 6]%Z)].

(** A file read with the wrong separator: one column only. *)
Definition only_id : DataFrame := [("id;a;b", texts ["1;2;3"; "4;5;6"])].

(** A sidebar in which only the listed widgets were touched. *)
Definition sidebar_with (dims x y z color size : nat) (max_size : option Z)
    (x_min x_max : option number) : Widgets :=
  mkWidgets dims x y z color 0 size max_size 0 0 0
    None None false x_min x_max None false None None None false None None None.

End Sample.

(** * Properties *)

(** ** Frames *)

Section frames.
Implicit Types (df : DataFrame) (key col : string) (s : Series).

Lemma getitem_is_Some df key : key ∈ df.*1 ↔ is_Some (pd.getitem df key).
Proof.
  induction df as [|[n c] rest IH]; simpl.
  - split; [intros H; inversion H | intros [? [=]]].
  - destruct (decide (n = key)) as [->|Hne].
    + split; [eauto | intros _; apply list_elem_of_here].
    + rewrite <- IH. split.
      * intros H. apply elem_of_cons in H as [->|H]; [done | exact H].
      * intros H. by apply list_elem_of_further.
Qed.

Lemma columns_names df col : col ∈ Classifier.columns df → col ∈ df.*1.
Proof.
  unfold Classifier.columns. destruct (df.*1) as [|n l]; simpl; [done|].
  intros H. by apply list_elem_of_further.
Qed.

Lemma getitem_columns df col :
  col ∈ Classifier.columns df → is_Some (pd.getitem df col).
Proof. intros H. by apply getitem_is_Some, columns_names. Qed.

Lemma getitem_setitem_eq df key s : pd.getitem (pd.setitem df key s) key = Some s.
Proof.
  induction df as [|[n c] rest IH]; simpl.
  - by rewrite decide_True.
  - destruct (decide (n = key)) as [->|Hne]; simpl.
    + by rewrite decide_True.
    + by rewrite decide_False.
Qed.

Lemma getitem_setitem_ne df key key' s :
  key ≠ key' → pd.getitem (pd.setitem df key s) key' = pd.getitem df key'.
Proof.
  intros Hne. induction df as [|[n c] rest IH]; simpl.
  - by rewrite decide_False.
  - destruct (decide (n = key)) as [->|Hn]; simpl.
    + by rewrite !decide_False.
    + destruct (decide (n = key')); [done | exact IH].
Qed.

Lemma getitem_setitem_is_Some df key key' s :
  is_Some (pd.getitem df key') → is_Some (pd.getitem (pd.setitem df key s) key').
Proof.
  intros H. destruct (decide (key = key')) as [->|Hne].
  - rewrite getitem_setitem_eq. eauto.
  - by rewrite getitem_setitem_ne.
Qed.


End frames.

(** ** The classifier *)

Section classifier.
Import Classifier.
Implicit Types (df : DataFrame) (col : string) (m f : nat).

Lemma discrete_columns_spec df col :
  col ∈ discrete_columns df ↔
  col ∈ columns df ∧ (dtype_of df col = Some object_ ∨ dtype_of df col = Some bool_).
Proof.
  unfold discrete_columns. rewrite list_elem_of_filter.
  destruct (dtype_of df col) as [[]|]; simpl; naive_solver.
Qed.

Lemma continuous_columns_spec df col :
  col ∈ continuous_columns df ↔
  col ∈ columns df ∧
  ∃ d, dtype_of df col = Some d ∧ d ∈ [int64; float64; int32; float32].
Proof.
  unfold continuous_columns, is_continuous. rewrite list_elem_of_filter.
  destruct (dtype_of df col) as [d|]; simpl.
  - rewrite bool_decide_spec. naive_solver.
  - naive_solver.
Qed.

Lemma valid_discrete_columns_spec m df col :
  col ∈ valid_discrete_columns m df ↔
  col ∈ discrete_columns df ∧ nunique_of df col ≤ m.
Proof. unfold valid_discrete_columns. rewrite list_elem_of_filter. tauto. Qed.

Lemma valid_facet_columns_spec m f df col :
  col ∈ valid_facet_columns m f df ↔
  col ∈ valid_discrete_columns m df ∧ nunique_of df col ≤ f.
Proof. unfold valid_facet_columns. rewrite list_elem_of_filter. tauto. Qed.

Lemma continuous_columns_sub df col : col ∈ continuous_columns df → col ∈ columns df.
Proof. rewrite continuous_columns_spec. tauto. Qed.

Lemma discrete_columns_sub df col : col ∈ discrete_columns df → col ∈ columns df.
Proof. rewrite discrete_columns_spec. tauto. Qed.

Lemma valid_discrete_columns_sub m df col :
  col ∈ valid_discrete_columns m df → col ∈ columns df.
Proof. rewrite valid_discrete_columns_spec. intros [H _]. by apply discrete_columns_sub. Qed.

Lemma valid_facet_columns_sub m f df col :
  col ∈ valid_facet_columns m f df → col ∈ columns df.
Proof.
  rewrite valid_facet_columns_spec. intros [H _]. by apply valid_discrete_columns_sub in H.
Qed.

Lemma continuous_not_discrete df col :
  col ∈ continuous_columns df → col ∉ discrete_columns df.
Proof.
  rewrite continuous_columns_spec, discrete_columns_spec.
  intros [_ (d & Hd & Hin)] [_ Hdis]. rewrite Hd in Hdis.
  set_solver.
Qed.

End classifier.

(** Membership and other decidable facts about concrete frames are settled by
    evaluation. *)
Ltac by_eval :=
  match goal with |- ?P => apply (bool_decide_unpack P); vm_compute; exact I end.

Section classifier_claims.
Import Classifier.

(** C8. A data column (any column but the identifier) whose dtype is bool is
    listed among the discrete columns and is not listed among the continuous
    ones. *)
Theorem C8_bool_column_discrete (df : DataFrame) (col : string) :
  col ∈ columns df →
  dtype_of df col = Some bool_ →
  col ∈ discrete_columns df ∧ col ∉ continuous_columns df.
Proof.
  intros Hcol Hty.
  assert (Hd : col ∈ discrete_columns df).
  { apply discrete_columns_spec. auto. }
  split; [exact Hd|].
  intros Hc. by apply continuous_not_discrete in Hc.
Qed.

Lemma C8_bool_column_discrete_witness :
  "flag" ∈ discrete_columns Sample.sales ∧ "flag" ∉ continuous_columns Sample.sales.
Proof. apply C8_bool_column_discrete; [by_eval | reflexivity]. Defined.

(** C2. Whatever the two limits [m] and [f] with [f ≤ m]: no column is both
    continuous and discrete, every facet-eligible column is
    selectable-discrete, and every selectable-discrete column is discrete. *)
Theorem C2_classification_invariants (df : DataFrame) (m f : nat) :
  f ≤ m →
  (∀ col, ¬ (col ∈ continuous_columns df ∧ col ∈ discrete_columns df)) ∧
  valid_facet_columns m f df ⊆ valid_discrete_columns m df ∧
  valid_discrete_columns m df ⊆ discrete_columns df.
Proof.
  intros _. split; [|split].
  - intros col [Hc Hd]. by apply continuous_not_discrete in Hc.
  - intros col. rewrite valid_facet_columns_spec. tauto.
  - intros col. rewrite valid_discrete_columns_spec. tauto.
Qed.

Lemma C2_classification_invariants_witness :
  (∀ col, ¬ (col ∈ continuous_columns Sample.sales ∧ col ∈ discrete_columns Sample.sales)) ∧
  valid_facet_columns MAX_DISCRETE_ELEMENTS FACET_LIMIT Sample.sales
    ⊆ valid_discrete_columns MAX_DISCRETE_ELEMENTS Sample.sales ∧
  valid_discrete_columns MAX_DISCRETE_ELEMENTS Sample.sales ⊆ discrete_columns Sample.sales.
Proof.
  apply C2_classification_invariants. unfold FACET_LIMIT, MAX_DISCRETE_ELEMENTS. lia.
Defined.

(** C1, as stated, fails: the integer column [count] of the sample has exactly
    [MAX_DISCRETE_ELEMENTS] distinct values and is not selectable-discrete. *)
Lemma C1_numeric_column_counterexample :
  "count" ∈ columns Sample.wide ∧
  dtype_of Sample.wide "count" = Some int64 ∧
  nunique_of Sample.wide "count" = MAX_DISCRETE_ELEMENTS ∧
  "count" ∉ valid_discrete_columns MAX_DISCRETE_ELEMENTS Sample.wide.
Proof.
  split; [by_eval|]. split; [reflexivity|]. split; [reflexivity|]. by_eval.
Qed.

(** C1, amended. For a limit [m], a text or boolean data column with exactly
    [m] distinct values is selectable-discrete and a column with [m + 1]
    distinct values is not; a numeric column is never selectable-discrete. *)
Theorem C1_threshold_boundary (m : nat) (df : DataFrame) (col : string) :
  col ∈ columns df →
  (from_option is_discrete false (dtype_of df col) →
   nunique_of df col = m → col ∈ valid_discrete_columns m df) ∧
  (nunique_of df col = m + 1 → (col ∉ valid_discrete_columns m df)) ∧
  (from_option is_continuous false (dtype_of df col) →
   col ∉ valid_discrete_columns m df).
Proof.
  intros Hcol. split; [|split].
  - intros Hd Hn. apply valid_discrete_columns_spec. split; [|lia].
    unfold discrete_columns. apply list_elem_of_filter. done.
  - intros Hn. rewrite valid_discrete_columns_spec. lia.
  - intros Hc Hv. apply valid_discrete_columns_spec in Hv as [Hv _].
    revert Hv. apply continuous_not_discrete.
    unfold continuous_columns. apply list_elem_of_filter. done.
Qed.

Lemma C1_threshold_boundary_witness :
  "ten" ∈ valid_discrete_columns MAX_DISCRETE_ELEMENTS Sample.wide ∧
  ("eleven" ∉ valid_discrete_columns MAX_DISCRETE_ELEMENTS Sample.wide) ∧
  ("count" ∉ valid_discrete_columns MAX_DISCRETE_ELEMENTS Sample.wide).
Proof.
  split; [|split].
  - apply (proj1 (C1_threshold_boundary MAX_DISCRETE_ELEMENTS Sample.wide "ten"
                    ltac:(by_eval))); [exact I | reflexivity].
  - apply (proj1 (proj2 (C1_threshold_boundary MAX_DISCRETE_ELEMENTS Sample.wide "eleven"
                    ltac:(by_eval)))); reflexivity.
  - apply (proj2 (proj2 (C1_threshold_boundary MAX_DISCRETE_ELEMENTS Sample.wide "count"
                    ltac:(by_eval)))); exact I.
Defined.

End classifier_claims.

(** ** Order on numbers, minimum and maximum of a column *)

Section numbers.
Implicit Types (a b c e : number) (l : list number).

Lemma leb_le a b : Number.leb a b = true ↔ Number.le a b.
Proof. unfold Number.leb, Number.le, Qcle. apply Qle_bool_iff. Qed.

Lemma leb_refl a : Number.leb a a = true.
Proof. apply leb_le, Qcle_refl. Qed.

Lemma leb_false a b : Number.leb a b = false → Number.leb b a = true.
Proof.
  intros H. apply leb_le. unfold Number.le.
  destruct (Qclt_le_dec (Number.value b) (Number.value a)) as [Hlt|Hle].
  - by apply Qclt_le_weak.
  - apply leb_le in Hle. congruence.
Qed.

Lemma le_trans a b c : Number.le a b → Number.le b c → Number.le a c.
Proof. apply Qcle_trans. Qed.

Lemma ltb_lt a b : Number.ltb a b = true ↔ Number.lt a b.
Proof.
  unfold Number.ltb, Number.lt. rewrite negb_true_iff. split.
  - intros H. apply Qcnot_le_lt. intros Hle. apply leb_le in Hle. congruence.
  - intros H. destruct (Number.leb b a) eqn:E; [|done].
    apply leb_le in E. by apply Qclt_not_le in H.
Qed.

Lemma least_elem l a : pd.least l = Some a → a ∈ l.
Proof.
  revert a. induction l as [|n rest IH]; intros a; simpl; [done|].
  destruct (pd.least rest) as [m|].
  - intros [= <-]. destruct (Number.leb n m).
    + apply list_elem_of_here.
    + apply list_elem_of_further. by apply IH.
  - intros [= <-]. apply list_elem_of_here.
Qed.

Lemma least_lower l a b : pd.least l = Some a → b ∈ l → Number.le a b.
Proof.
  revert a. induction l as [|n rest IH]; intros a Hl Hb; [inversion Hb|].
  simpl in Hl. destruct (pd.least rest) as [m|] eqn:E.
  - injection Hl as <-. apply elem_of_cons in Hb as [->|Hb].
    + destruct (Number.leb n m) eqn:L; [apply leb_le, leb_refl|].
      by apply leb_le, leb_false.
    + specialize (IH m eq_refl Hb).
      destruct (Number.leb n m) eqn:L; [|exact IH].
      apply leb_le in L. by eapply le_trans.
  - injection Hl as <-. destruct rest; [|simpl in E; by destruct (pd.least rest)].
    apply list_elem_of_singleton in Hb as ->. apply leb_le, leb_refl.
Qed.

Lemma greatest_elem l a : pd.greatest l = Some a → a ∈ l.
Proof.
  revert a. induction l as [|n rest IH]; intros a; simpl; [done|].
  destruct (pd.greatest rest) as [m|].
  - intros [= <-]. destruct (Number.leb m n).
    + apply list_elem_of_here.
    + apply list_elem_of_further. by apply IH.
  - intros [= <-]. apply list_elem_of_here.
Qed.


Lemma least_greatest_None l : pd.least l = None ↔ pd.greatest l = None.
Proof.
  destruct l as [|n rest]; simpl; [done|].
  destruct (pd.least rest), (pd.greatest rest); done.
Qed.

Lemma least_le_greatest l a b :
  pd.least l = Some a → pd.greatest l = Some b → Number.le a b.
Proof. intros Ha Hb. eapply least_lower; [done|]. by apply greatest_elem. Qed.

End numbers.

(** ** The range inputs *)

Section ranges.
Implicit Types (s : Session) (e : number) (lo hi value : option number).

Lemma below_refl value : st.below value value = false.
Proof.
  destruct value as [a|]; simpl; [|done].
  unfold Number.ltb. by rewrite leb_refl.
Qed.

Lemma below_max_min (col : Series) : st.below (pd.max col) (pd.min col) = false.
Proof.
  unfold pd.max, pd.min.
  destruct (pd.greatest (pd.numbers col)) as [b|] eqn:Hb; [|done].
  destruct (pd.least (pd.numbers col)) as [a|] eqn:Ha; [|done].
  simpl. unfold Number.ltb.
  apply negb_false_iff, leb_le. by eapply least_le_greatest.
Qed.

Lemma number_input_in_bounds (entry : option number) value lo hi s :
  st.below value lo = false → st.above value hi = false →
  st.number_input entry value lo hi s =
    (Done (match entry with
           | Some e => Some (st.clamp e lo hi)
           | None => value
           end), s).
Proof. intros Hlo Hhi. unfold st.number_input. by rewrite Hlo, Hhi. Qed.

(** A typed number ends up between the bounds. *)
Lemma clamp_between e (a b : number) :
  Number.le a b →
  Number.le a (st.clamp e (Some a) (Some b)) ∧ Number.le (st.clamp e (Some a) (Some b)) b.
Proof.
  intros Hab. unfold st.clamp, st.above, st.below, Number.ltb. simpl.
  destruct (Number.leb a e) eqn:Hae; simpl.
  - destruct (Number.leb e b) eqn:Heb; simpl.
    + split; by apply leb_le.
    + split; [exact Hab | apply leb_le, leb_refl].
  - split; [apply leb_le, leb_refl | exact Hab].
Qed.


Lemma getitem_Some s (c : string) (col : Series) :
  pd.getitem (frame s) c = Some col → getitem (Some c) s = (Done col, s).
Proof.
  intros H. unfold getitem, get_df, mbind, App_bind. simpl. by rewrite H.
Qed.

Lemma axis_range_Some s (c : string) (col : Series) (entry_min entry_max : option number) :
  pd.getitem (frame s) c = Some col →
  axis_range (Some c) entry_min entry_max s =
    (Done (match entry_min with
           | Some e => Some (st.clamp e (pd.min col) (pd.max col))
           | None => pd.min col
           end,
           match entry_max with
           | Some e => Some (st.clamp e (pd.min col) (pd.max col))
           | None => pd.max col
           end), s).
Proof.
  intros H. unfold axis_range, mbind, App_bind.
  rewrite (getitem_Some s c col H). cbv beta iota.
  rewrite (getitem_Some s c col H). cbv beta iota zeta.
  rewrite number_input_in_bounds by (apply below_refl || apply below_max_min).
  cbv beta iota.
  rewrite number_input_in_bounds by (apply below_refl || apply below_max_min).
  reflexivity.
Qed.

End ranges.



(** ** The widgets *)

Section widgets.
Implicit Types (cols : list string) (c : string) (n : name).

Lemma selectbox_elem {A} `{Inhabited A} (options : list A) (i : nat) :
  options ≠ [] → st.selectbox options i ∈ options.
Proof.
  intros Hne. unfold st.selectbox. destruct (options !! i) as [a|] eqn:E.
  - by eapply list_elem_of_lookup_2.
  - destruct options; [done | apply list_elem_of_here].
Qed.

Lemma selectbox_among cols i : among cols (st.selectbox (none_or cols) i).
Proof.
  intros c Hc.
  pose proof (selectbox_elem (none_or cols) i) as Hin.
  rewrite Hc in Hin. unfold none_or in Hin.
  specialize (Hin ltac:(done)).
  apply elem_of_cons in Hin as [[=]|Hin].
  apply list_elem_of_fmap in Hin as (c' & [= ->] & Hc'). done.
Qed.

Lemma radio_dimensions i : st.radio [2; 3] i = 2 ∨ st.radio [2; 3] i = 3.
Proof. destruct i as [|[|i]]; cbv; auto. Qed.

Lemma bind_Done {A B} (m : App A) (k : A → App B) (s s' : Session) (a : A) :
  m s = (Done a, s') → (m ≫= k) s = k a s'.
Proof. intros H. unfold mbind, App_bind. by rewrite H. Qed.

Lemma bind_Stopped {A B} (m : App A) (k : A → App B) (s s' : Session) :
  m s = (Stopped, s') → (m ≫= k) s = (Stopped, s').
Proof. intros H. unfold mbind, App_bind. by rewrite H. Qed.

End widgets.

(** ** The sidebar *)

Section sidebar.
Import Classifier.

Lemma default_columns_among (cols : list string) color size x y z symbol fc fr :
  among cols color → among cols size ∨ size = Some "dummy_size_axis" →
  among cols x → among cols y → among cols z → among cols symbol →
  among cols fc → among cols fr →
  Forall (λ d, d ∈ cols) (default_columns color size x y z symbol fc fr).
Proof.
  intros Hc Hs Hx Hy Hz Hsy Hfc Hfr. unfold default_columns.
  assert (Hopt : ∀ n, among cols n → Forall (λ d, d ∈ cols) (option_list n)).
  { intros [c|] Hn; simpl; [|constructor]. repeat constructor. by apply Hn. }
  repeat (apply Forall_app; split); try by apply Hopt.
  destruct Hs as [Hs| ->].
  - destruct (_ && _); [by apply Hopt | constructor].
  - simpl. constructor.
Qed.

Lemma getitem_in_frame (s : Session) (c : string) :
  is_Some (pd.getitem (frame s) c) →
  ∀ e1 e2, ∃ r, axis_range (Some c) e1 e2 s = (Done r, s).
Proof. intros [col Hcol] e1 e2. rewrite (axis_range_Some s c col) by done. eauto. Qed.

Lemma sidebar_done (file_name : string) (df : DataFrame) (ui : Widgets) (xc yc : string) :
  let dims := st.radio [2; 3] (dimensions_index ui) in
  let pick := st.selectbox (none_or (continuous_columns df)) in
  let valid := valid_discrete_columns MAX_DISCRETE_ELEMENTS df in
  let facet := valid_facet_columns MAX_DISCRETE_ELEMENTS FACET_LIMIT df in
  let zc := if dims =? 3 then pick (z_axis_index ui) else None in
  let picked_size := pick (size_axis_index ui) in
  let size := if is_None picked_size then Some "dummy_size_axis" else picked_size in
  let top := st.number_input_int (max_size_entry ui) 5 in
  let df' := if is_None picked_size then pd.setitem_int df "dummy_size_axis" top else df in
  pick (x_axis_index ui) = Some xc →
  pick (y_axis_index ui) = Some yc →
  (dims = 3 → pick (z_axis_index ui) ≠ None) →
  ∃ v, sidebar file_name ui (mkSession df []) = (Done v, mkSession df' []) ∧
       dimensions v = dims ∧
       x_axis v = Some xc ∧ y_axis v = Some yc ∧ z_axis v = zc ∧
       size_axis v = size ∧ max_size v = top ∧
       color_axis v = st.selectbox (none_or valid) (color_axis_index ui) ∧
       symbol_axis v = st.selectbox (none_or valid) (symbol_axis_index ui) ∧
       facet_col_axis v =
         (if dims =? 2 then st.selectbox (none_or facet) (facet_col_axis_index ui) else None) ∧
       facet_row_axis v =
         (if dims =? 2 then st.selectbox (none_or facet) (facet_row_axis_index ui) else None) ∧
       axis_range (Some xc) (x_range_min_entry ui) (x_range_max_entry ui) (mkSession df' [])
         = (Done (x_range_min v, x_range_max v), mkSession df' []) ∧
       axis_range (Some yc) (y_range_min_entry ui) (y_range_max_entry ui) (mkSession df' [])
         = (Done (y_range_min v, y_range_max v), mkSession df' []) ∧
       hover_data v =
         match hover_data_entry ui with
         | Some picks => filter (λ p, p ∈ columns df) picks
         | None => default_columns (color_axis v) size (Some xc) (Some yc) zc
                     (symbol_axis v) (facet_col_axis v) (facet_row_axis v)
         end.
Proof.
  intros dims pick valid facet zc picked_size size top df' Hx Hy Hz.
  assert (Hxc : xc ∈ columns df).
  { apply continuous_columns_sub. by apply (selectbox_among _ (x_axis_index ui)). }
  assert (Hyc : yc ∈ columns df).
  { apply continuous_columns_sub. by apply (selectbox_among _ (y_axis_index ui)). }
  assert (Hzc : among (columns df) zc).
  { intros c Hc. apply continuous_columns_sub. subst zc.
    destruct (dims =? 3); [|done]. by apply (selectbox_among _ (z_axis_index ui)). }
  assert (Hvalid : zc = None → (dims =? 3) = false).
  { subst zc. destruct (dims =? 3) eqn:E; [|done].
    apply Nat.eqb_eq in E. intros Hnone. by apply Hz in E. }
  assert (Hsome : ∀ c, c ∈ columns df → is_Some (pd.getitem df' c)).
  { intros c Hc. apply getitem_columns in Hc. subst df'.
    destruct (is_None picked_size); [by apply getitem_setitem_is_Some | done]. }
  destruct (getitem_in_frame (mkSession df' []) xc (Hsome _ Hxc)
              (x_range_min_entry ui) (x_range_max_entry ui)) as [xr Hxr].
  destruct (getitem_in_frame (mkSession df' []) yc (Hsome _ Hyc)
              (y_range_min_entry ui) (y_range_max_entry ui)) as [yr Hyr].
  assert (Hzr : ∃ zr, (if dims =? 3
                       then axis_range zc (z_range_min_entry ui) (z_range_max_entry ui)
                       else mret (None, None)) (mkSession df' []) = (Done zr, mkSession df' [])).
  { destruct (dims =? 3) eqn:E; [|by eexists].
    destruct zc as [c|] eqn:Ez; [|by specialize (Hvalid eq_refl)].
    apply getitem_in_frame, Hsome, Hzc. done. }
  destruct Hzr as [zr Hzr].
  eexists. split.
  - unfold sidebar.
    erewrite bind_Done by reflexivity. cbn [frame].
    rewrite bool_decide_false by (destruct (columns df); [inversion Hxc | done]).
    erewrite bind_Done by reflexivity.
    fold dims pick. rewrite Hx, Hy. fold zc.
    replace (is_None (Some xc) || is_None (Some yc) || (dims =? 3) && is_None zc)
      with false
      by (destruct zc; [by rewrite andb_false_r | by rewrite Hvalid]).
    erewrite bind_Done by reflexivity.
    erewrite (bind_Done _ _ _ (mkSession df' []) size); cycle 1.
    { subst size df' picked_size top. by destruct (is_None (pick (size_axis_index ui))). }
    erewrite bind_Done by exact Hxr.
    erewrite bind_Done by exact Hyr.
    erewrite bind_Done by exact Hzr.
    unfold st.multiselect at 1.
    rewrite decide_True; cycle 1.
    { apply default_columns_among; try done.
      - intros c Hc. eapply valid_discrete_columns_sub, selectbox_among, Hc.
      - subst size picked_size. destruct (is_None (pick (size_axis_index ui))); [by right|].
        left. intros c Hc. eapply continuous_columns_sub, selectbox_among, Hc.
      - by intros c [= <-].
      - by intros c [= <-].
      - intros c Hc. eapply valid_discrete_columns_sub, selectbox_among, Hc.
      - intros c Hc. destruct (dims =? 2); [|done].
        eapply valid_facet_columns_sub, selectbox_among, Hc.
      - intros c Hc. destruct (dims =? 2); [|done].
        eapply valid_facet_columns_sub, selectbox_among, Hc. }
    erewrite bind_Done by reflexivity.
    reflexivity.
  - cbn [dimensions x_axis y_axis z_axis size_axis max_size color_axis symbol_axis
           facet_col_axis facet_row_axis x_range_min x_range_max y_range_min y_range_max
           hover_data].
    rewrite <- !surjective_pairing.
    repeat split; done.
Qed.
End sidebar.

(** ** A whole run *)

Section runs.
Import Classifier.



(** A run on a frame without data columns halts at the first check. *)
Lemma run_no_columns (file_name : string) (df : DataFrame) (ui : Widgets) :
  columns df = [] →
  run file_name df ui =
    (Stopped,
     mkSession df
       [warning_box "No Columns found in the file";
        warning_box "Please upload a valid file, or choose a different separator"]).
Proof.
  intros H. unfold run, app, sidebar.
  erewrite bind_Stopped; [reflexivity|].
  erewrite bind_Done by reflexivity. cbn [frame]. rewrite H.
  erewrite bind_Stopped; reflexivity.
Qed.


End runs.

(** ** Claims about a run *)

Section run_claims.
Import Classifier.



(** C4. A frame that holds the identifier column only makes the run halt
    with the two warnings about the file and the separator on the page and no
    chart. In a frame with distinct column names the first column is in none
    of the lists the widgets offer: the data columns (hover data), the
    continuous, the selectable-discrete and the facet-eligible ones. *)
Theorem C4_identifier_column_only (file_name : string) (df : DataFrame) (ui : Widgets) :
  (length df = 1 →
   run file_name df ui =
     (Stopped,
      mkSession df
        [warning_box "No Columns found in the file";
         warning_box "Please upload a valid file, or choose a different separator"])) ∧
  (NoDup (df.*1) →
   ∀ id, head (df.*1) = Some id →
     (id ∉ columns df) ∧
     (id ∉ continuous_columns df) ∧
     (id ∉ valid_discrete_columns MAX_DISCRETE_ELEMENTS df) ∧
     (id ∉ valid_facet_columns MAX_DISCRETE_ELEMENTS FACET_LIMIT df)).
Proof.
  split.
  - intros Hlen. apply run_no_columns.
    destruct df as [|c [|c' rest]]; done.
  - intros Hnd id Hid.
    assert (Hcols : id ∉ columns df).
    { unfold columns. destruct (df.*1) as [|n l]; [done|].
      injection Hid as ->. simpl. by apply NoDup_cons in Hnd as [Hnd _]. }
    split; [done|]. split; [|split]; intros Hin; apply Hcols.
    + by apply continuous_columns_sub.
    + by eapply valid_discrete_columns_sub.
    + by eapply valid_facet_columns_sub.
Qed.

Lemma C4_identifier_column_only_witness :
  run "wrong.csv" Sample.only_id (Sample.sidebar_with 0 0 0 0 0 0 None None None) =
    (Stopped,
     mkSession Sample.only_id
       [warning_box "No Columns found in the file";
        warning_box "Please upload a valid file, or choose a different separator"]) ∧
  (("id" ∉ columns Sample.sales) ∧
   ("id" ∉ continuous_columns Sample.sales) ∧
   ("id" ∉ valid_discrete_columns MAX_DISCRETE_ELEMENTS Sample.sales) ∧
   ("id" ∉ valid_facet_columns MAX_DISCRETE_ELEMENTS FACET_LIMIT Sample.sales)).
Proof.
  split.
  - apply (C4_identifier_column_only "wrong.csv" Sample.only_id). reflexivity.
  - apply (C4_identifier_column_only "sales.csv" Sample.sales
             (Sample.sidebar_with 0 0 0 0 0 0 None None None));
      [by_eval | reflexivity].
Defined.

End run_claims.

(** ** The synthetic size column *)

Section size_claims.
Import Classifier.





End size_claims.

(** ** Hover data and ranges *)

Section hover_claims.
Import Classifier.

(** What lines 107 to 123 collect: every chosen column, the size column
    unless it goes by the name of the synthetic one. *)
Lemma default_columns_spec (color size x y z symbol fc fr : name) (c : string) :
  c ∈ default_columns color size x y z symbol fc fr ↔
  color = Some c ∨ (size = Some c ∧ c ≠ "dummy_size_axis") ∨ x = Some c ∨ y = Some c ∨
  z = Some c ∨ symbol = Some c ∨ fc = Some c ∨ fr = Some c.
Proof.
  unfold default_columns.
  assert (Hopt : ∀ n : name, c ∈ option_list n ↔ n = Some c).
  { intros [d|]; simpl.
    - rewrite list_elem_of_singleton. naive_solver.
    - split; [intros H; inversion H | done]. }
  assert (Hsize : c ∈ (if negb (is_None size) && negb (bool_decide (size = Some "dummy_size_axis"))
                       then option_list size else []) ↔ size = Some c ∧ c ≠ "dummy_size_axis").
  { destruct size as [d|]; simpl.
    - destruct (bool_decide_reflect (Some d = Some "dummy_size_axis")) as [E|E]; simpl.
      + injection E as ->. split; [intros H; inversion H | naive_solver].
      + rewrite list_elem_of_singleton. naive_solver.
    - split; [intros H; inversion H | naive_solver]. }
  rewrite !elem_of_app, !Hopt, Hsize. tauto.
Qed.

(** C7, at the input where it fails. The file brings a numeric column called
    [dummy_size_axis] and the user picks it as the size axis (with [a] and [b]
    as x and y): the sidebar writes no synthetic column, the size axis is the
    column of the file, and the default hover data are [a] and [b] only. *)
Theorem C7_real_size_axis_left_out :
  let ui := Sample.sidebar_with 0 2 3 0 0 1 None None None in
  st.selectbox (none_or (continuous_columns Sample.colliding)) (size_axis_index ui)
    = Some "dummy_size_axis" ∧
  ∃ v, sidebar "colliding.csv" ui (mkSession Sample.colliding [])
         = (Done v, mkSession Sample.colliding []) ∧
       size_axis v = Some "dummy_size_axis" ∧
       hover_data v = ["a"; "b"].
Proof.
  intros ui. split; [reflexivity|].
  eexists. split; [vm_compute; reflexivity|]. split; reflexivity.
Qed.

(** C10. The two range inputs are bounded one by one and never compared with
    each other: with Revenue spanning [10, 1000] on the x axis, a minimum of
    900 and a maximum of 20 are both taken as typed and reach the renderer as
    the range (900, 20). *)
Theorem C10_inverted_range_accepted :
  let ui := Sample.sidebar_with 0 1 2 0 0 0 None (Some (Int 900)) (Some (Int 20)) in
  ∃ s fig col,
    run "revenue.csv" Sample.revenue ui = (Done tt, s) ∧
    page s = [plotly_chart_box fig true] ∧
    px.x_of (call fig) = Some "Revenue" ∧
    pd.getitem (px.frame_of (call fig)) "Revenue" = Some col ∧
    pd.min col = Some (Int 10) ∧ pd.max col = Some (Int 1000) ∧
    px.range_x_of (call fig) = (x_range_min_entry ui, x_range_max_entry ui) ∧
    px.range_x_of (call fig) = (Some (Int 900), Some (Int 20)) ∧
    Number.lt (Int 20) (Int 900).
Proof.
  intros ui. eexists _, _, _.
  split; [vm_compute; reflexivity|].
  split; [reflexivity|]. split; [reflexivity|]. split; [reflexivity|].
  split; [reflexivity|]. split; [reflexivity|]. split; [reflexivity|].
  split; [reflexivity|]. by apply ltb_lt.
Qed.

End hover_claims.

(** * Further properties of a run *)

(** ** Reading a result backwards *)

Section inversion.
Import Classifier.

Lemma bind_Done_inv {A B} (m : App A) (k : A → App B) (s s' : Session) (b : B) :
  (m ≫= k) s = (Done b, s') → ∃ a s1, m s = (Done a, s1) ∧ k a s1 = (Done b, s').
Proof.
  unfold mbind, App_bind. destruct (m s) as [[a| |e] s1]; [eauto | done | done].
Qed.

Lemma when_Done_inv (b : bool) (body : App unit) (s s' : Session) :
  (∀ s1, (body s1).1 ≠ Done tt) →
  when b body s = (Done tt, s') → b = false ∧ s' = s.
Proof.
  intros Hbody H. destruct b; simpl in H.
  - specialize (Hbody s). rewrite H in Hbody. done.
  - by injection H.
Qed.

Lemma multiselect_Done_inv (entry : option (list string)) (options default h : list string)
    (s s' : Session) :
  st.multiselect entry options default s = (Done h, s') → h ⊆ options.
Proof.
  unfold st.multiselect. destruct (decide _) as [Hall|]; [|done].
  intros [= <- _]. destruct entry as [picks|].
  - intros c Hc. by apply list_elem_of_filter in Hc as [Hc _].
  - intros c Hc. rewrite Forall_forall in Hall. by apply Hall.
Qed.

Lemma sidebar_inv (file_name : string) (df : DataFrame) (ui : Widgets)
    (v : Selections) (s : Session) :
  let dims := st.radio [2; 3] (dimensions_index ui) in
  let pick := st.selectbox (none_or (continuous_columns df)) in
  let valid := valid_discrete_columns MAX_DISCRETE_ELEMENTS df in
  let facet := valid_facet_columns MAX_DISCRETE_ELEMENTS FACET_LIMIT df in
  sidebar file_name ui (mkSession df []) = (Done v, s) →
  (x_axis v ≠ None ∧ y_axis v ≠ None ∧ (dimensions v = 3 → z_axis v ≠ None)) ∧
  dimensions v = dims ∧
  x_axis v = pick (x_axis_index ui) ∧
  y_axis v = pick (y_axis_index ui) ∧
  z_axis v = (if dims =? 3 then pick (z_axis_index ui) else None) ∧
  color_axis v = st.selectbox (none_or valid) (color_axis_index ui) ∧
  default_color v = st.selectbox ["blue"; "red"; "green"] (default_color_index ui) ∧
  size_axis v = (if is_None (pick (size_axis_index ui)) then Some "dummy_size_axis"
                 else pick (size_axis_index ui)) ∧
  max_size v = st.number_input_int (max_size_entry ui) 5 ∧
  symbol_axis v = st.selectbox (none_or valid) (symbol_axis_index ui) ∧
  facet_col_axis v =
    (if dims =? 2 then st.selectbox (none_or facet) (facet_col_axis_index ui) else None) ∧
  facet_row_axis v =
    (if dims =? 2 then st.selectbox (none_or facet) (facet_row_axis_index ui) else None) ∧
  title v = st.text_input (title_entry ui) (Some ("Scatter Plot for " ++ file_name)) ∧
  x_label v = st.text_input (x_label_entry ui) (x_axis v) ∧
  y_label v = st.text_input (y_label_entry ui) (y_axis v) ∧
  z_label v = (if dims =? 3 then st.text_input (z_label_entry ui) (z_axis v) else None) ∧
  hover_data v ⊆ columns df.
Proof.
  intros dims pick valid facet H. unfold sidebar in H.
  apply bind_Done_inv in H as (df0 & s1 & Hget & H).
  injection Hget as <- <-.
  apply bind_Done_inv in H as ([] & s2 & Hw1 & H).
  apply when_Done_inv in Hw1 as [_ ->]; [|done].
  apply bind_Done_inv in H as ([] & s3 & Hw2 & H).
  apply when_Done_inv in Hw2 as [Hvalid ->]; [|done].
  apply bind_Done_inv in H as (sz & s4 & Hsz & H).
  apply bind_Done_inv in H as (xr & s5 & _ & H).
  apply bind_Done_inv in H as (yr & s6 & _ & H).
  apply bind_Done_inv in H as (zr & s7 & _ & H).
  apply bind_Done_inv in H as (h & s8 & Hh & H).
  apply multiselect_Done_inv in Hh.
  injection H as <- _.
  cbn [dimensions x_axis y_axis z_axis color_axis default_color size_axis max_size symbol_axis
         facet_col_axis facet_row_axis title x_label y_label z_label hover_data].
  fold dims pick in Hvalid, Hsz |- *.
  apply orb_false_iff in Hvalid as [Hvalid Hz]. apply orb_false_iff in Hvalid as [Hx Hy].
  split.
  { split; [|split].
    - intros E. by rewrite E in Hx.
    - intros E. by rewrite E in Hy.
    - intros E. rewrite E in Hz |- *. simpl in *. intros E'. by rewrite E' in Hz. }
  repeat (split; [reflexivity|]).
  split; [|done].
  destruct (is_None (pick (size_axis_index ui))); cbn in Hsz; by injection Hsz.
Qed.
End inversion.

Section outcomes.
Import Classifier.

Lemma sidebar_state (file_name : string) (df : DataFrame) (ui : Widgets)
    (v : Selections) (s : Session) :
  let picked_size := st.selectbox (none_or (continuous_columns df)) (size_axis_index ui) in
  sidebar file_name ui (mkSession df []) = (Done v, s) →
  s = mkSession (if is_None picked_size
                 then pd.setitem_int df "dummy_size_axis"
                        (st.number_input_int (max_size_entry ui) 5)
                 else df) [].
Proof.
  intros picked_size H.
  destruct (sidebar_inv _ _ _ _ _ H) as ((Hx & Hy & Hz) & Ed & Ex & Ey & Ez & _).
  destruct (x_axis v) as [xc|] eqn:Exv; [|done].
  destruct (y_axis v) as [yc|] eqn:Eyv; [|done].
  destruct (sidebar_done file_name df ui xc yc) as (v' & Hv' & _); [done | done | |].
  - intros E. rewrite Ed in Hz. specialize (Hz E). rewrite Ez, E in Hz. exact Hz.
  - rewrite Hv' in H. by injection H.
Qed.

(** The checks of lines 129 to 131 and 154 to 156 repeat the one of line 51. *)
Lemma scatter_plot_inv (v : Selections) (s s' : Session) (fig : Figure) :
  scatter_plot v s = (Done fig, s') →
  s' = s ∧
  fig = update_layout_title (title v) (new_figure
    (if dimensions v =? 3
     then px.scatter_3d
       (px.mk_scatter_3d (frame s)
          (x_axis v) (x_range_min v, x_range_max v)
          (y_axis v) (y_range_min v, y_range_max v)
          (z_axis v) (z_range_min v, z_range_max v)
          (color_axis v) (size_axis v) (max_size v) (symbol_axis v)
          (x_log_scale v) (y_log_scale v) (z_log_scale v)
          (<[z_axis v := z_label v]> (<[y_axis v := y_label v]> (<[x_axis v := x_label v]> ∅)))
          (hover_data v))
     else px.scatter
       (px.mk_scatter (frame s)
          (x_axis v) (x_range_min v, x_range_max v)
          (y_axis v) (y_range_min v, y_range_max v)
          (color_axis v) (symbol_axis v) (size_axis v) (max_size v)
          (facet_col_axis v) (facet_row_axis v)
          (x_log_scale v) (y_log_scale v)
          (<[title v := title v]> (<[y_axis v := y_label v]> (<[x_axis v := x_label v]> ∅)))
          (hover_data v)))).
Proof.
  unfold scatter_plot. intros H.
  apply bind_Done_inv in H as (df0 & s1 & Hget & H). injection Hget as <- <-.
  destruct (dimensions v =? 3).
  - apply bind_Done_inv in H as ([] & s2 & Hw & H).
    apply when_Done_inv in Hw as [_ ->]; [|done]. by injection H as <- <-.
  - apply bind_Done_inv in H as ([] & s2 & Hw & H).
    apply when_Done_inv in Hw as [_ ->]; [|done]. by injection H as <- <-.
Qed.

Lemma run_inv (file_name : string) (df : DataFrame) (ui : Widgets) (s : Session) :
  run file_name df ui = (Done tt, s) →
  ∃ v s1 fig,
    sidebar file_name ui (mkSession df []) = (Done v, s1) ∧
    scatter_plot v s1 = (Done fig, s1) ∧
    s = mkSession (frame s1)
          [plotly_chart_box
             (update_traces
                (mkMarker 1
                   (if is_None (color_axis v) then Some (default_color v) else None)
                   (if is_None (color_axis v) then Some (default_color v) else None))
                (update_layout_size false 700 700 fig)) true].
Proof.
  unfold run, app. intros H.
  apply bind_Done_inv in H as (v & s1 & Hv & H).
  apply bind_Done_inv in H as (fig & s2 & Hfig & H).
  pose proof (sidebar_state _ _ _ _ _ Hv) as Hs1.
  destruct (scatter_plot_inv _ _ _ _ Hfig) as [-> _].
  exists v, s1, fig. split; [done|]. split; [done|].
  injection H as <-. by rewrite Hs1.
Qed.

(** A run with data columns in which x or y is not chosen halts at the axis
    check, in two and in three dimensions. *)
Lemma run_no_xy (file_name : string) (df : DataFrame) (ui : Widgets) :
  let pick := st.selectbox (none_or (continuous_columns df)) in
  columns df ≠ [] →
  pick (x_axis_index ui) = None ∨ pick (y_axis_index ui) = None →
  run file_name df ui =
    (Stopped, mkSession df [warning_box "Please select x, y, and z axis"]).
Proof.
  intros pick Hcols Hxy. unfold run, app, sidebar.
  erewrite bind_Stopped; [reflexivity|].
  erewrite bind_Done by reflexivity. cbn [frame].
  rewrite bool_decide_false by (by destruct (columns df)).
  erewrite bind_Done by reflexivity.
  fold pick.
  replace (is_None (pick (x_axis_index ui)) || is_None (pick (y_axis_index ui))) with true.
  - erewrite bind_Stopped; reflexivity.
  - destruct Hxy as [-> | ->]; [done|]. by rewrite orb_true_r.
Qed.

End outcomes.

Section more_runs.
Import Classifier.



(** X2. With data columns present, a run in which x or y is not chosen halts
    with the warning about the axes (the same text in two and in three
    dimensions), draws no chart and leaves the frame untouched. *)
Theorem X2_missing_axis_halts (file_name : string) (df : DataFrame) (ui : Widgets) :
  let pick := st.selectbox (none_or (continuous_columns df)) in
  columns df ≠ [] →
  pick (x_axis_index ui) = None ∨ pick (y_axis_index ui) = None →
  run file_name df ui =
    (Stopped, mkSession df [warning_box "Please select x, y, and z axis"]).
Proof. apply run_no_xy. Qed.

Lemma X2_missing_axis_halts_witness :
  run "sales.csv" Sample.sales (Sample.sidebar_with 1 0 2 3 0 0 None None None) =
    (Stopped, mkSession Sample.sales [warning_box "Please select x, y, and z axis"]).
Proof.
  apply (X2_missing_axis_halts "sales.csv" Sample.sales
           (Sample.sidebar_with 1 0 2 3 0 0 None None None)); [done | by left].
Defined.

(** X3. A file whose data columns are all non-numeric can never be plotted:
    whatever the user does in the sidebar, the run halts with the warning
    about the axes. *)
Theorem X3_no_continuous_column (file_name : string) (df : DataFrame) (ui : Widgets) :
  columns df ≠ [] →
  continuous_columns df = [] →
  run file_name df ui =
    (Stopped, mkSession df [warning_box "Please select x, y, and z axis"]).
Proof.
  intros Hcols Hcont. apply run_no_xy; [done|]. left.
  rewrite Hcont. unfold st.selectbox, none_or. simpl.
  by destruct (x_axis_index ui) as [|[|i]].
Qed.

Lemma X3_no_continuous_column_witness :
  let names := [("id", Sample.ints [1; 2]%Z); ("first", Sample.texts ["Ada"; "Bob"]);
                ("city", Sample.texts ["Oslo"; "Rome"])] in
  run "names.csv" names (Sample.sidebar_with 0 1 2 0 0 0 None None None) =
    (Stopped, mkSession names [warning_box "Please select x, y, and z axis"]).
Proof.
  intros names.
  apply (X3_no_continuous_column "names.csv" names
           (Sample.sidebar_with 0 1 2 0 0 0 None None None)); [done | reflexivity].
Defined.



End more_runs.

Section more_selections.
Import Classifier.

Lemma selections_in_their_class (file_name : string) (df : DataFrame) (ui : Widgets)
    (v : Selections) (s : Session) :
  let valid := valid_discrete_columns MAX_DISCRETE_ELEMENTS df in
  let facet := valid_facet_columns MAX_DISCRETE_ELEMENTS FACET_LIMIT df in
  sidebar file_name ui (mkSession df []) = (Done v, s) →
  (∃ xc yc, x_axis v = Some xc ∧ y_axis v = Some yc ∧
            xc ∈ continuous_columns df ∧ yc ∈ continuous_columns df) ∧
  among (continuous_columns df) (z_axis v) ∧
  (size_axis v = Some "dummy_size_axis" ∨ among (continuous_columns df) (size_axis v)) ∧
  among valid (color_axis v) ∧ among valid (symbol_axis v) ∧
  among facet (facet_col_axis v) ∧ among facet (facet_row_axis v).
Proof.
  intros valid facet H.
  destruct (sidebar_inv _ _ _ _ _ H)
    as ((Hx & Hy & _) & _ & Ex & Ey & Ez & Ec & _ & Es & _ & Esy & Efc & Efr & _).
  split; [|split; [|split; [|split; [|split; [|split]]]]].
  - destruct (x_axis v) as [xc|] eqn:Exv; [|done].
    destruct (y_axis v) as [yc|] eqn:Eyv; [|done].
    exists xc, yc. split; [done|]. split; [done|].
    split; eapply selectbox_among; eauto.
  - rewrite Ez. destruct (_ =? 3); [apply selectbox_among | done].
  - rewrite Es. destruct (is_None _); [by left | right; apply selectbox_among].
  - rewrite Ec. apply selectbox_among.
  - rewrite Esy. apply selectbox_among.
  - rewrite Efc. destruct (_ =? 2); [apply selectbox_among | done].
  - rewrite Efr. destruct (_ =? 2); [apply selectbox_among | done].
Qed.

(** X6. Selections that reach the plotting code come from the right lists:
    x and y are continuous columns, z is absent or continuous, the size axis
    is continuous or the synthetic name, color and symbol are absent or
    selectable-discrete, the facets are absent or facet-eligible. *)
Theorem X6_selections_in_their_class (file_name : string) (df : DataFrame) (ui : Widgets)
    (v : Selections) (s : Session) :
  let valid := valid_discrete_columns MAX_DISCRETE_ELEMENTS df in
  let facet := valid_facet_columns MAX_DISCRETE_ELEMENTS FACET_LIMIT df in
  sidebar file_name ui (mkSession df []) = (Done v, s) →
  (∃ xc yc, x_axis v = Some xc ∧ y_axis v = Some yc ∧
            xc ∈ continuous_columns df ∧ yc ∈ continuous_columns df) ∧
  among (continuous_columns df) (z_axis v) ∧
  (size_axis v = Some "dummy_size_axis" ∨ among (continuous_columns df) (size_axis v)) ∧
  among valid (color_axis v) ∧ among valid (symbol_axis v) ∧
  among facet (facet_col_axis v) ∧ among facet (facet_row_axis v).
Proof. apply selections_in_their_class. Qed.

Lemma X6_selections_in_their_class_witness :
  ∃ v s, sidebar "sales.csv" (Sample.sidebar_with 0 1 2 0 1 0 None None None)
           (mkSession Sample.sales []) = (Done v, s) ∧
         x_axis v = Some "value1" ∧ color_axis v = Some "category" ∧
         among (valid_discrete_columns MAX_DISCRETE_ELEMENTS Sample.sales) (color_axis v).
Proof.
  eexists _, _. split; [vm_compute; reflexivity|].
  split; [reflexivity|]. split; [reflexivity|].
  eapply (X6_selections_in_their_class "sales.csv" Sample.sales
            (Sample.sidebar_with 0 1 2 0 1 0 None None None)).
  vm_compute; reflexivity.
Defined.

(** X8. The widgets of the other dimension are ignored: in two dimensions
    the selections carry no z axis whatever the z widget holds, in three
    dimensions they carry a z axis and no facet column or row. *)
Theorem X8_widgets_of_the_other_dimension (file_name : string) (df : DataFrame) (ui : Widgets)
    (v : Selections) (s : Session) :
  sidebar file_name ui (mkSession df []) = (Done v, s) →
  (dimensions v = 2 ∧ z_axis v = None) ∨
  (dimensions v = 3 ∧ facet_col_axis v = None ∧ facet_row_axis v = None ∧ z_axis v ≠ None).
Proof.
  intros H.
  destruct (sidebar_inv _ _ _ _ _ H)
    as ((_ & _ & Hz) & Ed & _ & _ & Ez & _ & _ & _ & _ & _ & Efc & Efr & _).
  destruct (radio_dimensions (dimensions_index ui)) as [E|E]; rewrite E in *.
  - left. by rewrite Ed, Ez.
  - right. rewrite Ed, Efc, Efr. auto.
Qed.

Lemma X8_widgets_of_the_other_dimension_witness :
  ∃ v s, sidebar "sales.csv" (Sample.sidebar_with 0 1 2 3 0 0 None None None)
           (mkSession Sample.sales []) = (Done v, s) ∧
         ((dimensions v = 2 ∧ z_axis v = None) ∨
          (dimensions v = 3 ∧ facet_col_axis v = None ∧ facet_row_axis v = None ∧
           z_axis v ≠ None)).
Proof.
  eexists _, _. split; [vm_compute; reflexivity|].
  eapply (X8_widgets_of_the_other_dimension "sales.csv" Sample.sales
            (Sample.sidebar_with 0 1 2 3 0 0 None None None)).
  vm_compute; reflexivity.
Defined.

End more_selections.

Section more_renderer.
Import Classifier.

Lemma scatter_plot_call (v : Selections) (s s' : Session) (fig : Figure) :
  scatter_plot v s = (Done fig, s') →
  layout_title fig = title v ∧
  px.is_3d (call fig) = (dimensions v =? 3) ∧
  px.frame_of (call fig) = frame s ∧
  px.x_of (call fig) = x_axis v ∧
  px.y_of (call fig) = y_axis v ∧
  px.z_of (call fig) = (if dimensions v =? 3 then z_axis v else None) ∧
  px.size_of (call fig) = size_axis v ∧
  px.color_of (call fig) = color_axis v ∧
  px.symbol_of (call fig) = symbol_axis v ∧
  px.facet_col_of (call fig) = (if dimensions v =? 3 then None else facet_col_axis v) ∧
  px.facet_row_of (call fig) = (if dimensions v =? 3 then None else facet_row_axis v) ∧
  px.hover_data_of (call fig) = hover_data v ∧
  px.labels_of (call fig) =
    (if dimensions v =? 3
     then <[z_axis v := z_label v]> (<[y_axis v := y_label v]> (<[x_axis v := x_label v]> ∅))
     else <[title v := title v]> (<[y_axis v := y_label v]> (<[x_axis v := x_label v]> ∅))).
Proof.
  intros H. apply scatter_plot_inv in H as [_ ->].
  destruct (dimensions v =? 3); cbn; done.
Qed.

(** X7. The renderer is only given names of columns of the frame it is given:
    this holds for x, y, z, size, color, symbol and the two facets, and every
    hover-data column is moreover a data column of the loaded file (never the
    identifier column), also when the user edited the hover list. *)
Theorem X7_renderer_columns_exist (file_name : string) (df : DataFrame) (ui : Widgets)
    (s : Session) (fig : Figure) (b : bool) :
  run file_name df ui = (Done tt, s) →
  page s = [plotly_chart_box fig b] →
  px.frame_of (call fig) = frame s ∧
  Forall (λ n : name, ∀ c, n = Some c → is_Some (pd.getitem (frame s) c))
    [px.x_of (call fig); px.y_of (call fig); px.z_of (call fig); px.size_of (call fig);
     px.color_of (call fig); px.symbol_of (call fig);
     px.facet_col_of (call fig); px.facet_row_of (call fig)] ∧
  Forall (λ c, c ∈ columns df ∧ is_Some (pd.getitem (frame s) c)) (px.hover_data_of (call fig)).
Proof.
  intros Hrun Hpage.
  apply run_inv in Hrun as (v & s1 & fig0 & Hv & Hfig & ->).
  injection Hpage as <- <-. cbn [call update_traces update_layout_size frame].
  destruct (scatter_plot_call _ _ _ _ Hfig)
    as (_ & _ & Ff & Fx & Fy & Fz & Fs & Fc & Fsy & Ffc & Ffr & Fh & _).
  rewrite Ff, Fx, Fy, Fz, Fs, Fc, Fsy, Ffc, Ffr, Fh.
  destruct (selections_in_their_class file_name df ui v s1 Hv)
    as ((xc & yc & Ex & Ey & Hxc & Hyc) & Hz & Hs & Hcol & Hsy & Hfc & Hfr).
  destruct (sidebar_inv _ _ _ _ _ Hv) as (_ & _ & _ & _ & _ & _ & _ & Es & _ & _ & _ & _ & _ & _ & _ & _ & Hh).
  pose proof (sidebar_state _ _ _ _ _ Hv) as ->. cbn [frame].
  set (df' := if is_None _ then _ else _) in *.
  assert (Hsome : ∀ c, c ∈ columns df → is_Some (pd.getitem df' c)).
  { intros c Hc. apply getitem_columns in Hc. subst df'.
    destruct (is_None _); [by apply getitem_setitem_is_Some | done]. }
  split; [done|]. split.
  - repeat apply Forall_cons_2; try apply Forall_nil_2.
    + intros c Hc. rewrite Ex in Hc. injection Hc as <-.
      by apply Hsome, continuous_columns_sub.
    + intros c Hc. rewrite Ey in Hc. injection Hc as <-.
      by apply Hsome, continuous_columns_sub.
    + intros c Hc. destruct (dimensions v =? 3); [|done].
      by apply Hsome, continuous_columns_sub, Hz.
    + intros c Hc. rewrite Es in Hc. subst df'.
      destruct (is_None _) eqn:En.
      * injection Hc as <-. unfold pd.setitem_int. rewrite getitem_setitem_eq. eauto.
      * apply getitem_columns, continuous_columns_sub. eapply selectbox_among, Hc.
    + intros c Hc. eapply Hsome, valid_discrete_columns_sub, Hcol. exact Hc.
    + intros c Hc. eapply Hsome, valid_discrete_columns_sub, Hsy. exact Hc.
    + intros c Hc. destruct (dimensions v =? 3); [done|].
      eapply Hsome, valid_facet_columns_sub, Hfc. exact Hc.
    + intros c Hc. destruct (dimensions v =? 3); [done|].
      eapply Hsome, valid_facet_columns_sub, Hfr. exact Hc.
  - apply Forall_forall. intros c Hc. split; [by apply Hh|]. by apply Hsome, Hh.
Qed.
End more_renderer.

Section more_figure.
Import Classifier.

Lemma X7_renderer_columns_exist_witness :
  ∃ s fig,
    run "colliding.csv" Sample.colliding (Sample.sidebar_with 1 2 3 1 0 0 None None None)
      = (Done tt, s) ∧
    page s = [plotly_chart_box fig true] ∧
    px.size_of (call fig) = Some "dummy_size_axis" ∧
    px.frame_of (call fig) = frame s ∧
    Forall (λ n : name, ∀ c, n = Some c → is_Some (pd.getitem (frame s) c))
      [px.x_of (call fig); px.y_of (call fig); px.z_of (call fig); px.size_of (call fig);
       px.color_of (call fig); px.symbol_of (call fig);
       px.facet_col_of (call fig); px.facet_row_of (call fig)] ∧
    Forall (λ c, c ∈ columns Sample.colliding ∧ is_Some (pd.getitem (frame s) c))
      (px.hover_data_of (call fig)).
Proof.
  eexists _, _. split; [vm_compute; reflexivity|].
  split; [reflexivity|]. split; [reflexivity|].
  eapply (X7_renderer_columns_exist "colliding.csv" Sample.colliding
            (Sample.sidebar_with 1 2 3 1 0 0 None None None)); reflexivity.
Defined.

(** X9. Every chart drawn is 700 by 700 with autosize off, is shown at
    container width and carries the title text (by default "Scatter Plot for"
    and the file name); the marker outline has width 1, and outline and fill
    take the default color (blue, red or green) exactly when no color axis is
    chosen, and no color otherwise. *)
Theorem X9_chart_layout_and_marker (file_name : string) (df : DataFrame) (ui : Widgets)
    (s : Session) (fig : Figure) (b : bool) :
  let default_color := st.selectbox ["blue"; "red"; "green"] (default_color_index ui) in
  let trace_color := if is_None (px.color_of (call fig)) then Some default_color else None in
  run file_name df ui = (Done tt, s) →
  page s = [plotly_chart_box fig b] →
  b = true ∧
  autosize fig = false ∧ width fig = Some 700 ∧ height fig = Some 700 ∧
  layout_title fig = st.text_input (title_entry ui) (Some ("Scatter Plot for " ++ file_name)) ∧
  marker fig = Some (mkMarker 1 trace_color trace_color) ∧
  default_color ∈ ["blue"; "red"; "green"].
Proof.
  intros default_color trace_color Hrun Hpage. subst trace_color.
  apply run_inv in Hrun as (v & s1 & fig0 & Hv & Hfig & ->).
  injection Hpage as <- <-.
  cbn [call update_traces update_layout_size autosize width height layout_title marker].
  destruct (scatter_plot_call _ _ _ _ Hfig) as (Ft & _ & _ & _ & _ & _ & _ & Fc & _).
  destruct (sidebar_inv _ _ _ _ _ Hv)
    as (_ & _ & _ & _ & _ & _ & Edc & _ & _ & _ & _ & _ & Et & _).
  rewrite Ft, Fc, Et, Edc.
  repeat (split; [reflexivity|]).
  by apply selectbox_elem.
Qed.

Lemma X9_chart_layout_and_marker_witness :
  let ui := Sample.sidebar_with 0 1 2 0 1 0 None None None in
  ∃ fig,
    page (run "sales.csv" Sample.sales ui).2 = [plotly_chart_box fig true] ∧
    px.color_of (call fig) = Some "category" ∧
    (true = true ∧
     autosize fig = false ∧ width fig = Some 700 ∧ height fig = Some 700 ∧
     layout_title fig = Some "Scatter Plot for sales.csv" ∧
     marker fig = Some (mkMarker 1 None None) ∧
     "blue" ∈ ["blue"; "red"; "green"]).
Proof.
  intros ui. eexists. split; [reflexivity|]. split; [reflexivity|].
  apply (X9_chart_layout_and_marker "sales.csv" Sample.sales ui
           (run "sales.csv" Sample.sales ui).2);
    [vm_compute; reflexivity | reflexivity].
Defined.



(** X11. The label map given to the renderer is a dictionary keyed by column
    name, so later keys win: the label shown for the x column is the x label
    unless y is the same column (then the y label), and unless, in three
    dimensions, z is the same column (then the z label) or, in two
    dimensions, the title text equals the column name (then the title). *)
Theorem X11_label_of_x (file_name : string) (df : DataFrame) (ui : Widgets)
    (s : Session) (fig : Figure) (b : bool) :
  let x := px.x_of (call fig) in
  run file_name df ui = (Done tt, s) →
  page s = [plotly_chart_box fig b] →
  px.labels_of (call fig) !! x =
    Some (if px.is_3d (call fig)
          then (if decide (px.z_of (call fig) = x) then st.text_input (z_label_entry ui) x
                else if decide (px.y_of (call fig) = x) then st.text_input (y_label_entry ui) x
                else st.text_input (x_label_entry ui) x)
          else (if decide (layout_title fig = x) then layout_title fig
                else if decide (px.y_of (call fig) = x) then st.text_input (y_label_entry ui) x
                else st.text_input (x_label_entry ui) x)).
Proof.
  intros x Hrun Hpage. subst x.
  apply run_inv in Hrun as (v & s1 & fig0 & Hv & Hfig & ->).
  injection Hpage as <- <-.
  cbn [call update_traces update_layout_size layout_title].
  destruct (scatter_plot_call _ _ _ _ Hfig)
    as (Ft & F3 & _ & Fx & Fy & Fz & _ & _ & _ & _ & _ & _ & Fl).
  destruct (sidebar_inv _ _ _ _ _ Hv)
    as (_ & Ed & _ & _ & _ & _ & _ & _ & _ & _ & _ & _ & _ & Exl & Eyl & Ezl & _).
  rewrite Ft, F3, Fx, Fy, Fz, Fl, Exl, Eyl, Ezl, <- Ed.
  destruct (dimensions v =? 3); rewrite !lookup_insert;
    repeat case_decide; congruence.
Qed.

Lemma X11_label_of_x_witness :
  let ui := mkWidgets 0 1 1 0 0 0 0 None 0 0 0
              None (Some "Width") false None None (Some "Height") false None None
              None false None None None in
  ∃ fig,
    page (run "sales.csv" Sample.sales ui).2 = [plotly_chart_box fig true] ∧
    px.x_of (call fig) = Some "value1" ∧ px.y_of (call fig) = Some "value1" ∧
    px.labels_of (call fig) !! Some "value1" = Some (Some "Height").
Proof.
  intros ui. eexists. split; [reflexivity|]. split; [reflexivity|]. split; [reflexivity|].
  eapply (X11_label_of_x "sales.csv" Sample.sales ui (run "sales.csv" Sample.sales ui).2);
    [vm_compute; reflexivity | reflexivity].
Defined.

(** X12. The two classes do not cover every column: a data column whose
    dtype is none of object, bool, int64, float64, int32, float32 (uint64 or
    datetime64, say) is neither continuous nor discrete, hence offered for no
    axis and no encoding. *)
Theorem X12_other_dtypes_unclassified (df : DataFrame) (col : string) (d : Dtype) (m f : nat) :
  col ∈ columns df →
  dtype_of df col = Some d →
  d ∉ [object_; bool_; int64; float64; int32; float32] →
  (col ∉ continuous_columns df) ∧ (col ∉ discrete_columns df) ∧
  (col ∉ valid_discrete_columns m df) ∧ (col ∉ valid_facet_columns m f df).
Proof.
  intros Hcol Hd Hnot.
  assert (Hc : col ∉ continuous_columns df).
  { rewrite continuous_columns_spec. intros [_ (d' & Hd' & Hin)].
    rewrite Hd in Hd'. injection Hd' as <-. set_solver. }
  assert (Hdis : col ∉ discrete_columns df).
  { rewrite discrete_columns_spec. intros [_ [H|H]]; rewrite Hd in H; set_solver. }
  split; [done|]. split; [done|]. split.
  - rewrite valid_discrete_columns_spec. tauto.
  - rewrite valid_facet_columns_spec, valid_discrete_columns_spec. tauto.
Qed.

Lemma X12_other_dtypes_unclassified_witness :
  let big := [("id", Sample.ints [1; 2]%Z);
              ("atoms", mkSeries uint64 [Num (Int 18446744073709551615); Num (Int 7)]);
              ("mass", Sample.ints [3; 4]%Z)] in
  ("atoms" ∉ continuous_columns big) ∧ ("atoms" ∉ discrete_columns big) ∧
  ("atoms" ∉ valid_discrete_columns MAX_DISCRETE_ELEMENTS big) ∧
  ("atoms" ∉ valid_facet_columns MAX_DISCRETE_ELEMENTS FACET_LIMIT big).
Proof.
  intros big.
  apply (X12_other_dtypes_unclassified big "atoms" uint64); [by_eval | reflexivity | by_eval].
Defined.

(** X13. The facet list is the list of discrete columns filtered by the
    smaller of the two limits, in file order: a facet limit above the
    selectable-discrete limit has no effect. *)
Theorem X13_facet_limit_composition (m f : nat) (df : DataFrame) :
  valid_facet_columns m f df =
    filter (λ col, nunique_of df col ≤ Nat.min m f) (discrete_columns df).
Proof.
  unfold valid_facet_columns, valid_discrete_columns.
  rewrite list_filter_filter. apply list_filter_iff. intros col. lia.
Qed.

End more_figure.

Section more_ranges.
Import Classifier.

Lemma axis_range_state (axis : name) (e1 e2 : option number) (s s' : Session) (r : range) :
  axis_range axis e1 e2 s = (Done r, s') → s' = s.
Proof.
  unfold axis_range. intros H.
  assert (Hget : ∀ s0 s1 col, getitem axis s0 = (Done col, s1) → s1 = s0).
  { intros s0 s1 col. unfold getitem, get_df. rewrite (bind_Done _ _ s0 s0 (frame s0)) by done.
    destruct (axis ≫= pd.getitem (frame s0)); cbv [raise mret App_ret]; intros H0.
    all: congruence. }
  assert (Hnum : ∀ e v lo hi s0 s1 n, st.number_input e v lo hi s0 = (Done n, s1) → s1 = s0).
  { intros e v lo hi s0 s1 n. unfold st.number_input.
    destruct (_ || _); cbv [raise mret App_ret]; intros H0; congruence. }
  apply bind_Done_inv in H as (c1 & s1 & H1 & H). apply Hget in H1 as ->.
  apply bind_Done_inv in H as (c2 & s2 & H2 & H). apply Hget in H2 as ->.
  apply bind_Done_inv in H as (n1 & s3 & H3 & H). apply Hnum in H3 as ->.
  apply bind_Done_inv in H as (n2 & s4 & H4 & H). apply Hnum in H4 as ->.
  by injection H.
Qed.

Lemma sidebar_ranges (file_name : string) (df : DataFrame) (ui : Widgets)
    (v : Selections) (s : Session) :
  sidebar file_name ui (mkSession df []) = (Done v, s) →
  axis_range (x_axis v) (x_range_min_entry ui) (x_range_max_entry ui) s
    = (Done (x_range_min v, x_range_max v), s) ∧
  axis_range (y_axis v) (y_range_min_entry ui) (y_range_max_entry ui) s
    = (Done (y_range_min v, y_range_max v), s) ∧
  (dimensions v = 3 →
   axis_range (z_axis v) (z_range_min_entry ui) (z_range_max_entry ui) s
     = (Done (z_range_min v, z_range_max v), s)).
Proof.
  intros H. unfold sidebar in H.
  apply bind_Done_inv in H as (df0 & s1 & Hget & H).
  injection Hget as <- <-.
  apply bind_Done_inv in H as ([] & s2 & Hw1 & H).
  apply when_Done_inv in Hw1 as [_ ->]; [|done].
  apply bind_Done_inv in H as ([] & s3 & Hw2 & H).
  apply when_Done_inv in Hw2 as [_ ->]; [|done].
  apply bind_Done_inv in H as (sz & s4 & _ & H).
  apply bind_Done_inv in H as (xr & s5 & Hx & H).
  pose proof (axis_range_state _ _ _ _ _ _ Hx) as ->.
  apply bind_Done_inv in H as (yr & s6 & Hy & H).
  pose proof (axis_range_state _ _ _ _ _ _ Hy) as ->.
  apply bind_Done_inv in H as (zr & s7 & Hz & H).
  assert (s7 = s4) as ->.
  { destruct (_ =? 3); [by apply axis_range_state in Hz | by injection Hz]. }
  apply bind_Done_inv in H as (h & s8 & Hh & H).
  assert (s8 = s4) as ->.
  { unfold st.multiselect in Hh. destruct (decide _); [by injection Hh | done]. }
  injection H as <- <-.
  cbn [dimensions x_axis y_axis z_axis x_range_min x_range_max y_range_min y_range_max
         z_range_min z_range_max].
  rewrite <- !surjective_pairing.
  split; [exact Hx|]. split; [exact Hy|].
  intros E. rewrite E in Hz |- *. exact Hz.
Qed.

Lemma sidebar_hover (file_name : string) (df : DataFrame) (ui : Widgets)
    (v : Selections) (s : Session) :
  sidebar file_name ui (mkSession df []) = (Done v, s) →
  hover_data v =
    match hover_data_entry ui with
    | Some picks => filter (λ p, p ∈ columns df) picks
    | None => default_columns (color_axis v) (size_axis v) (x_axis v) (y_axis v) (z_axis v)
                (symbol_axis v) (facet_col_axis v) (facet_row_axis v)
    end.
Proof.
  intros H. unfold sidebar in H.
  apply bind_Done_inv in H as (df0 & s1 & Hget & H).
  injection Hget as <- <-.
  apply bind_Done_inv in H as ([] & s2 & _ & H).
  apply bind_Done_inv in H as ([] & s3 & _ & H).
  apply bind_Done_inv in H as (sz & s4 & _ & H).
  apply bind_Done_inv in H as (xr & s5 & _ & H).
  apply bind_Done_inv in H as (yr & s6 & _ & H).
  apply bind_Done_inv in H as (zr & s7 & _ & H).
  apply bind_Done_inv in H as (h & s8 & Hh & H).
  injection H as <- _.
  cbn [hover_data color_axis size_axis x_axis y_axis z_axis symbol_axis
         facet_col_axis facet_row_axis].
  unfold st.multiselect in Hh. destruct (decide _); [by injection Hh | done].
Qed.

End more_ranges.

Section more_hover.
Import Classifier.

(** X14. In a run that draws a chart with the hover widget untouched, the
    hover data are exactly the columns given as color, x, y, z, symbol, facet
    column and facet row, and the size column unless it is called
    [dummy_size_axis]. *)
Theorem X14_default_hover_data (file_name : string) (df : DataFrame) (ui : Widgets)
    (s : Session) (fig : Figure) (b : bool) :
  run file_name df ui = (Done tt, s) →
  page s = [plotly_chart_box fig b] →
  hover_data_entry ui = None →
  ∀ c, c ∈ px.hover_data_of (call fig) ↔
       px.color_of (call fig) = Some c ∨
       (px.size_of (call fig) = Some c ∧ c ≠ "dummy_size_axis") ∨
       px.x_of (call fig) = Some c ∨ px.y_of (call fig) = Some c ∨
       px.z_of (call fig) = Some c ∨ px.symbol_of (call fig) = Some c ∨
       px.facet_col_of (call fig) = Some c ∨ px.facet_row_of (call fig) = Some c.
Proof.
  intros Hrun Hpage Hentry c.
  apply run_inv in Hrun as (v & s1 & fig0 & Hv & Hfig & ->).
  injection Hpage as <- <-. cbn [call update_traces update_layout_size].
  destruct (scatter_plot_call _ _ _ _ Hfig)
    as (_ & _ & _ & Fx & Fy & Fz & Fs & Fc & Fsy & Ffc & Ffr & Fh & _).
  rewrite Fx, Fy, Fz, Fs, Fc, Fsy, Ffc, Ffr, Fh.
  rewrite (sidebar_hover _ _ _ _ _ Hv), Hentry, default_columns_spec.
  destruct (sidebar_inv _ _ _ _ _ Hv)
    as (_ & Ed & _ & _ & Ez & _ & _ & _ & _ & _ & Efc & Efr & _).
  rewrite Ez, Efc, Efr, Ed.
  destruct (radio_dimensions (dimensions_index ui)) as [E|E]; rewrite E; simpl; tauto.
Qed.

Lemma X14_default_hover_data_witness :
  let ui := Sample.sidebar_with 1 1 2 3 1 2 None None None in
  ∃ fig,
    page (run "sales.csv" Sample.sales ui).2 = [plotly_chart_box fig true] ∧
    px.hover_data_of (call fig) = ["category"; "value2"; "value1"; "value2"; "ratio"] ∧
    ∀ c, c ∈ px.hover_data_of (call fig) ↔
         px.color_of (call fig) = Some c ∨
         (px.size_of (call fig) = Some c ∧ c ≠ "dummy_size_axis") ∨
         px.x_of (call fig) = Some c ∨ px.y_of (call fig) = Some c ∨
         px.z_of (call fig) = Some c ∨ px.symbol_of (call fig) = Some c ∨
         px.facet_col_of (call fig) = Some c ∨ px.facet_row_of (call fig) = Some c.
Proof.
  intros ui. eexists. split; [reflexivity|]. split; [reflexivity|].
  eapply (X14_default_hover_data "sales.csv" Sample.sales ui
            (run "sales.csv" Sample.sales ui).2);
    [vm_compute; reflexivity | reflexivity | reflexivity].
Defined.

Lemma axis_range_within (s s' : Session) (c : string) (col : Series) (lo hi : number)
    (e1 e2 : option number) (r : range) :
  pd.getitem (frame s) c = Some col →
  pd.min col = Some lo →
  pd.max col = Some hi →
  axis_range (Some c) e1 e2 s = (Done r, s') →
  ∃ a b, r = (Some a, Some b) ∧
         (Number.le lo a ∧ Number.le a hi) ∧ (Number.le lo b ∧ Number.le b hi).
Proof.
  intros Hcol Hlo Hhi H.
  assert (Hle : Number.le lo hi) by (by eapply least_le_greatest).
  rewrite (axis_range_Some s c col) in H by done. rewrite Hlo, Hhi in H.
  injection H as <- _.
  assert (Hself : (Number.le lo lo ∧ Number.le lo hi) ∧ (Number.le lo hi ∧ Number.le hi hi)).
  { repeat split; try done; apply leb_le, leb_refl. }
  destruct e1 as [a|], e2 as [b|]; eexists _, _; (split; [reflexivity|]); split;
    try (by apply clamp_between); tauto.
Qed.

Lemma scatter_plot_ranges (v : Selections) (s s' : Session) (fig : Figure) :
  scatter_plot v s = (Done fig, s') →
  px.range_x_of (call fig) = (x_range_min v, x_range_max v) ∧
  px.range_y_of (call fig) = (y_range_min v, y_range_max v) ∧
  (dimensions v = 3 → px.range_z_of (call fig) = (z_range_min v, z_range_max v)).
Proof.
  intros H. apply scatter_plot_inv in H as [_ ->].
  destruct (dimensions v =? 3) eqn:E; cbn; [done|].
  split; [done|]. split; [done|]. intros E'. by rewrite E' in E.
Qed.

(** X15. For each axis given to the renderer (x, y, and z in three
    dimensions) whose column, in the frame given to the renderer, has an
    observed minimum and maximum, both range bounds given to the renderer lie
    between them. *)
Theorem X15_ranges_given_to_renderer (file_name : string) (df : DataFrame) (ui : Widgets)
    (s : Session) (fig : Figure) (b : bool) :
  run file_name df ui = (Done tt, s) →
  page s = [plotly_chart_box fig b] →
  Forall
    (λ axis : name * range,
       ∀ c col lo hi,
         axis.1 = Some c →
         pd.getitem (px.frame_of (call fig)) c = Some col →
         pd.min col = Some lo → pd.max col = Some hi →
         ∃ low high, axis.2 = (Some low, Some high) ∧
                     (Number.le lo low ∧ Number.le low hi) ∧
                     (Number.le lo high ∧ Number.le high hi))
    [(px.x_of (call fig), px.range_x_of (call fig));
     (px.y_of (call fig), px.range_y_of (call fig));
     (px.z_of (call fig), px.range_z_of (call fig))].
Proof.
  intros Hrun Hpage.
  apply run_inv in Hrun as (v & s1 & fig0 & Hv & Hfig & ->).
  injection Hpage as <- <-. cbn [call update_traces update_layout_size].
  destruct (scatter_plot_call _ _ _ _ Hfig) as (_ & _ & Ff & Fx & Fy & Fz & _).
  destruct (scatter_plot_ranges _ _ _ _ Hfig) as (Rx & Ry & Rz).
  destruct (sidebar_ranges _ _ _ _ _ Hv) as (Ax & Ay & Az).
  rewrite Ff, Fx, Fy, Fz, Rx, Ry.
  repeat apply Forall_cons_2; try apply Forall_nil_2; cbn [fst snd].
  - intros c col lo hi Ec Hcol Hlo Hhi. rewrite Ec in Ax. by eapply axis_range_within.
  - intros c col lo hi Ec Hcol Hlo Hhi. rewrite Ec in Ay. by eapply axis_range_within.
  - intros c col lo hi Ec Hcol Hlo Hhi.
    destruct (dimensions v =? 3) eqn:E; [|done].
    apply Nat.eqb_eq in E. rewrite (Rz E). specialize (Az E). rewrite Ec in Az.
    by eapply axis_range_within.
Qed.

Lemma X15_ranges_given_to_renderer_witness :
  let ui := Sample.sidebar_with 0 1 2 0 0 0 None (Some (Int 0)) (Some (Int 2000)) in
  ∃ fig,
    page (run "revenue.csv" Sample.revenue ui).2 = [plotly_chart_box fig true] ∧
    px.range_x_of (call fig) = (Some (Int 10), Some (Int 1000)) ∧
    Forall
      (λ axis : name * range,
         ∀ c col lo hi,
           axis.1 = Some c →
           pd.getitem (px.frame_of (call fig)) c = Some col →
           pd.min col = Some lo → pd.max col = Some hi →
           ∃ low high, axis.2 = (Some low, Some high) ∧
                       (Number.le lo low ∧ Number.le low hi) ∧
                       (Number.le lo high ∧ Number.le high hi))
      [(px.x_of (call fig), px.range_x_of (call fig));
       (px.y_of (call fig), px.range_y_of (call fig));
       (px.z_of (call fig), px.range_z_of (call fig))].
Proof.
  intros ui. eexists. split; [reflexivity|]. split; [reflexivity|].
  eapply (X15_ranges_given_to_renderer "revenue.csv" Sample.revenue ui
            (run "revenue.csv" Sample.revenue ui).2);
    [vm_compute; reflexivity | reflexivity].
Defined.

End more_hover.
